(** * Session daemon: poller, session manager and recording controller

    A shallow embedding of [radiens_poller.py], [session_manager.py] and
    [frigate_controller.py].  Every method becomes a function that takes the
    object's state and the answers of the outside world (clock readings,
    transport replies, fresh identifiers) and returns the new state, the
    returned value and the list of observable events (log records, handler
    invocations, publishes) in program order. *)

From Stdlib Require Import String Ascii List ZArith Bool Lia DecimalString.
Import ListNotations.
Open Scope string_scope.
Open Scope Z_scope.
Open Scope list_scope.

(** What a call into foreign code (a transport, a registered handler) does:
    it returns a value or raises an exception carrying [str(e)]. *)
Inductive outcome (A : Type) : Type :=
| Returns (a : A)
| Raises (msg : string).
Arguments Returns {A} a.
Arguments Raises {A} msg.

(** ** radiens_poller.py *)
Module RadiensPoller.

Inductive RecordingState : Type := ON | OFF | UNKNOWN.

Definition value (s : RecordingState) : string :=
  match s with ON => "R_ON" | OFF => "R_OFF" | UNKNOWN => "UNKNOWN" end.

Definition state_eqb (a b : RecordingState) : bool :=
  match a, b with
  | ON, ON | OFF, OFF | UNKNOWN, UNKNOWN => true
  | _, _ => false
  end.

(** [RadiensStatus]; [poll_time] is the clock reading taken when the snapshot
    is built. *)
Record RadiensStatus : Type := mkRadiensStatus {
  recording : RecordingState;
  stream : string;
  base_name : string;
  file_path : string;
  connected : bool;
  error : option string;
  poll_time : Z
}.

(** The object [AllegoClient.get_status()] answers with.  [a_recording] is
    [str(allego_status.recording)]; the other three attributes are read with
    [getattr(_, name, "")], so each may be missing. *)
Record AllegoStatus : Type := mkAllegoStatus {
  a_recording : string;
  a_stream : option string;
  a_base_name : option string;
  a_path : option string
}.

Definition getattr (o : option string) (default : string) : string :=
  match o with Some s => s | None => default end.

Inductive Event : Type :=
| Log_unexpected_state (rec_str : string)
| Log_started (base : string)
| Log_stopped
| Log_initial_state (v : string)
| Log_poll_failed (n : Z) (msg : string)
| Log_connected (rec_str : string)
| Log_connect_failed (msg : string)
| Call_on_session_start (st : RadiensStatus)
| Call_on_session_end (st : RadiensStatus).

Definition Handler : Type := RadiensStatus -> outcome unit.

Inductive AllegoClient : Type := allego_client.

Record Poller : Type := mkPoller {
  poll_interval : Z;
  on_session_start : option Handler;
  on_session_end : option Handler;
  client : option AllegoClient;
  previous_state : RecordingState;
  is_connected : bool;
  consecutive_errors : Z;
  max_silent_errors : Z
}.

(** [RadiensPoller.__init__] *)
Definition init (interval : Z) (hs he : option Handler) : Poller :=
  mkPoller interval hs he None UNKNOWN false 0 5.

Definition set_link (p : Poller) (c : bool) (n : Z) : Poller :=
  mkPoller (poll_interval p) (on_session_start p) (on_session_end p)
           (client p) (previous_state p) c n (max_silent_errors p).

Definition set_client (p : Poller) (c : option AllegoClient) : Poller :=
  mkPoller (poll_interval p) (on_session_start p) (on_session_end p)
           c (previous_state p) (is_connected p) (consecutive_errors p)
           (max_silent_errors p).

Definition set_previous_state (p : Poller) (s : RecordingState) : Poller :=
  mkPoller (poll_interval p) (on_session_start p) (on_session_end p)
           (client p) s (is_connected p) (consecutive_errors p)
           (max_silent_errors p).

(** What the world does during one [connect()]: the import fails, the
    constructor raises, the test poll raises, or the test poll answers. *)
Inductive ConnectInput : Type :=
| Import_fails
| Constructor_raises (msg : string)
| Test_poll_raises (msg : string)
| Test_poll_answers (a : AllegoStatus).

Definition connect (p : Poller) (w : ConnectInput) : Poller * bool * list Event :=
  match w with
  | Import_fails =>
      (set_link p false (consecutive_errors p), false,
       [Log_connect_failed "radiens package not installed"])
  | Constructor_raises e =>
      (set_link p false (consecutive_errors p), false, [Log_connect_failed e])
  | Test_poll_raises e =>
      let p1 := set_client p (Some allego_client) in
      (set_link p1 false (consecutive_errors p1), false, [Log_connect_failed e])
  | Test_poll_answers a =>
      let p1 := set_client p (Some allego_client) in
      (set_link p1 true 0, true, [Log_connected (a_recording a)])
  end.

(** What the world does during one [poll()]: [get_status()] answers with a
    status object that has a [recording] attribute, or raises; [now] is the
    clock. *)
Record PollInput : Type := mkPollInput {
  get_status : outcome AllegoStatus;
  now : Z
}.

Definition classify (rec_str : string) : RecordingState :=
  if String.eqb rec_str "R_ON" then ON
  else if String.eqb rec_str "R_OFF" then OFF
  else UNKNOWN.

Definition snapshot (a : AllegoStatus) (t : Z) : RadiensStatus :=
  mkRadiensStatus (classify (a_recording a))
                  (getattr (a_stream a) "")
                  (getattr (a_base_name a) "")
                  (getattr (a_path a) "")
                  true None t.

(** The [except Exception] clause of [poll]. *)
Definition poll_except (p : Poller) (msg : string) (t : Z) (evs : list Event)
  : Poller * RadiensStatus * list Event :=
  let n := consecutive_errors p + 1 in
  let log :=
    if (n =? 1) || (n mod max_silent_errors p =? 0)
    then [Log_poll_failed n msg] else [] in
  (set_link p false n,
   mkRadiensStatus UNKNOWN "" "" "" false (Some msg) t,
   evs ++ log).

(** [handler(status)] behind an [if handler:] guard: the events it adds and
    the exception it raises, if any. *)
Definition invoke (h : option Handler) (call : RadiensStatus -> Event)
    (st : RadiensStatus) : list Event * option string :=
  match h with
  | None => ([], None)
  | Some f =>
      match f st with
      | Returns _ => ([call st], None)
      | Raises e => ([call st], Some e)
      end
  end.

(** [RadiensPoller.poll] *)
Definition poll (p : Poller) (w : PollInput)
  : Poller * RadiensStatus * list Event :=
  match client p with
  | None =>
      (p,
       mkRadiensStatus UNKNOWN "" "" "" false
         (Some "Not connected (call connect() first)") (now w),
       [])
  | Some _ =>
      match get_status w with
      | Raises e => poll_except p e (now w) []
      | Returns a =>
          let p1 := set_link p true 0 in
          let rec_str := a_recording a in
          let current_state := classify rec_str in
          let ev_parse :=
            match current_state with
            | UNKNOWN => [Log_unexpected_state rec_str]
            | _ => []
            end in
          let status := snapshot a (now w) in
          let '(ev_edge, raised) :=
            if state_eqb (previous_state p1) OFF && state_eqb current_state ON
            then
              let '(evs, r) := invoke (on_session_start p1) Call_on_session_start status in
              (Log_started (base_name status) :: evs, r)
            else if state_eqb (previous_state p1) ON && state_eqb current_state OFF
            then
              let '(evs, r) := invoke (on_session_end p1) Call_on_session_end status in
              (Log_stopped :: evs, r)
            else ([], None) in
          match raised with
          | Some e => poll_except p1 e (now w) (ev_parse ++ ev_edge)
          | None =>
              let ev_init :=
                if state_eqb (previous_state p1) UNKNOWN
                then [Log_initial_state (value current_state)] else [] in
              (set_previous_state p1 current_state, status,
               ev_parse ++ ev_edge ++ ev_init)
          end
      end
  end.

(** The main loop's view of the poller: one [poll()] per input, in order. *)
Fixpoint run (p : Poller) (ws : list PollInput)
  : list (RadiensStatus * list Event) * Poller :=
  match ws with
  | [] => ([], p)
  | w :: rest =>
      let '(p1, st, evs) := poll p w in
      let '(out, p2) := run p1 rest in
      ((st, evs) :: out, p2)
  end.

Definition is_callback (e : Event) : bool :=
  match e with
  | Call_on_session_start _ | Call_on_session_end _ => true
  | _ => false
  end.

Definition callbacks (evs : list Event) : list Event := filter is_callback evs.

(** The previous successful observation, read off what Radiens answered:
    the indicator classified from the last answer among [ws], or the baseline
    when [get_status()] raised every time. *)
Definition last_reading (baseline : RecordingState) (ws : list PollInput)
  : RecordingState :=
  fold_left (fun acc w => match get_status w with
                          | Returns a => classify (a_recording a)
                          | Raises _ => acc
                          end) ws baseline.



Definition answers (rec_str : string) (t : Z) : PollInput :=
  mkPollInput (Returns (mkAllegoStatus rec_str None None None)) t.

Definition quiet : Handler := fun _ => Returns tt.

(** A poller whose [connect()] succeeded. *)
Definition started (hs he : Handler) : Poller :=
  fst (fst (connect (init 1000 (Some hs) (Some he))
                    (Test_poll_answers (mkAllegoStatus "R_OFF" None None None)))).

(** What the main loop and the API do to a poller, one call at a time. *)
Inductive PollerCall : Type :=
| Do_connect (w : ConnectInput)
| Do_poll (w : PollInput).

Definition apply_poller_call (p : Poller) (c : PollerCall) : Poller :=
  match c with
  | Do_connect w => fst (fst (connect p w))
  | Do_poll w => fst (fst (poll p w))
  end.

Definition apply_poller_calls (p : Poller) (cs : list PollerCall) : Poller :=
  fold_left apply_poller_call cs p.

(** A poll input on which [get_status()] raises. *)
Definition fails (w : PollInput) : Prop :=
  exists e, get_status w = Raises e.

(** The warning the [n]-th consecutive failure writes: the first and every
    fifth are logged, the others are silent. *)
Definition failure_log (n : Z) (w : PollInput) : list Event :=
  match get_status w with
  | Raises e => if (n =? 1) || (n mod 5 =? 0) then [Log_poll_failed n e] else []
  | Returns _ => []
  end.

(** What holds of a poller at any moment of its life. *)
Definition well_formed (hs he : option Handler) (p : Poller) : Prop :=
  (is_connected p = true -> client p <> None /\ consecutive_errors p = 0)
  /\ 0 <= consecutive_errors p
  /\ max_silent_errors p = 5
  /\ on_session_start p = hs
  /\ on_session_end p = he
  /\ (client p = None -> previous_state p = UNKNOWN).

End RadiensPoller.

(** ** session_manager.py *)
Module SessionManager.

(** An f-string: its pieces, concatenated. *)
Definition fstr (parts : list string) : string := String.concat "" parts.

(** [str(n)] for an int. *)
Definition str_int (n : Z) : string := NilZero.string_of_int (Z.to_int n).

Definition digit (d : Z) : ascii := ascii_of_nat (48 + Z.to_nat (d mod 10)).

(** [%02d] on a value of at most two digits. *)
Definition pad2 (n : Z) : string :=
  String (digit (n / 10)) (String (digit n) EmptyString).

Definition pad4 (n : Z) : string := (pad2 (n / 100) ++ pad2 n)%string.

Definition pad6 (n : Z) : string := (pad2 (n / 10000) ++ pad4 n)%string.

(** [s.replace(old, new)] for one-character [old] and [new]. *)
Fixpoint replace (old new : ascii) (s : string) : string :=
  match s with
  | EmptyString => EmptyString
  | String c rest =>
      String (if Ascii.eqb c old then new else c) (replace old new rest)
  end.

(** [s.rsplit(sep, 1)[0]]: what precedes the last [sep], all of [s] when
    there is none. *)
Fixpoint rsplit_head (sep : ascii) (s : string) : option string :=
  match s with
  | EmptyString => None
  | String c rest =>
      match rsplit_head sep rest with
      | Some h => Some (String c h)
      | None => if Ascii.eqb c sep then Some EmptyString else None
      end
  end.

Definition rsplit1 (sep : ascii) (s : string) : string :=
  match rsplit_head sep s with Some h => h | None => s end.

(** A timezone-aware [datetime]; [utcoffset] in minutes. *)
Record datetime : Type := mkDatetime {
  year : Z; month : Z; day : Z;
  hour : Z; minute : Z; second : Z; microsecond : Z;
  utcoffset : Z
}.

(** [dt.strftime("%y%m%d%H%M")] *)
Definition strftime_ymdHM (dt : datetime) : string :=
  fstr [pad2 (year dt mod 100); pad2 (month dt); pad2 (day dt);
        pad2 (hour dt); pad2 (minute dt)].

(** [dt.isoformat()] *)
Definition isoformat (dt : datetime) : string :=
  fstr [pad4 (year dt); "-"; pad2 (month dt); "-"; pad2 (day dt); "T";
        pad2 (hour dt); ":"; pad2 (minute dt); ":"; pad2 (second dt);
        (if microsecond dt =? 0 then "" else fstr ["."; pad6 (microsecond dt)]);
        (if utcoffset dt <? 0 then "-" else "+");
        pad2 (Z.abs (utcoffset dt) / 60); ":"; pad2 (Z.abs (utcoffset dt) mod 60)].

Record SessionMetadata : Type := mkSessionMetadata {
  mouse_id : string;
  recording_type : string;
  user_name : string;
  chamber : Z
}.

(** [SessionMetadata()] *)
Definition default_metadata : SessionMetadata :=
  mkSessionMetadata "unknown" "unknown" "unknown" 0.

Definition is_default (m : SessionMetadata) : bool :=
  String.eqb (mouse_id m) "unknown"
  && String.eqb (recording_type m) "unknown"
  && String.eqb (user_name m) "unknown".

(** [SessionRecord]; instants and the duration are in milliseconds.  The four
    fields copied from the metadata carry a [session_] prefix. *)
Record SessionRecord : Type := mkSessionRecord {
  session_id : string;
  start_time_utc : Z;
  end_time_utc : Z;
  start_time_local : string;
  end_time_local : string;
  duration_seconds : Z;
  session_mouse_id : string;
  session_recording_type : string;
  session_user_name : string;
  session_chamber : Z;
  camera : string;
  radiens_xdat_filename : string;
  radiens_xdat_path : string;
  video_filename : string;
  export_status : string;
  nas_transfer_status : string
}.

(** The path [Path(directory) / name], kept as the two operands of the join:
    the string it prints as is pathlib's business. *)
Record path : Type := mkPath {
  path_directory : string;
  path_name : string
}.

Inductive Event : Type :=
| Log_metadata_updated (m : SessionMetadata)
| Log_metadata_cleared
| Log_started_without_metadata
| Log_session_started (s : SessionRecord)
| Log_no_active_session
| Log_session_ended (duration : Z) (filename : string)
| Log_session_aborted (reason : string) (duration : Z)
| Json_written (file : path) (s : SessionRecord)
| Log_json_failed (file : path) (msg : string).

(** The manager.  [tz] is [datetime.fromtimestamp(_, tz=self.tz)]; [cameras]
    is the dict in insertion order. *)
Record Manager : Type := mkManager {
  sessions_dir : string;
  export_dir : string;
  tz : Z -> datetime;
  cameras : list (string * string);
  pending_metadata : SessionMetadata;
  active_session : option SessionRecord;
  history : list SessionRecord
}.

Definition with_pending (m : Manager) (md : SessionMetadata) : Manager :=
  mkManager (sessions_dir m) (export_dir m) (tz m) (cameras m)
            md (active_session m) (history m).

Definition with_active (m : Manager) (a : option SessionRecord) : Manager :=
  mkManager (sessions_dir m) (export_dir m) (tz m) (cameras m)
            (pending_metadata m) a (history m).

Definition with_history (m : Manager) (h : list SessionRecord) : Manager :=
  mkManager (sessions_dir m) (export_dir m) (tz m) (cameras m)
            (pending_metadata m) (active_session m) h.

(** [d.get(key, default)] *)
Fixpoint dict_get (d : list (string * string)) (key default : string) : string :=
  match d with
  | [] => default
  | (k, v) :: rest => if String.eqb k key then v else dict_get rest key default
  end.

Definition default_cameras : list (string * string) :=
  [("chamber_0", "pi_cam_0"); ("chamber_1", "pi_cam_1")].

(** [SessionManager.__init__]; [loaded] is what [_load_history] reads back
    from the sessions directory. *)
Definition init (sdir edir : string) (zone : Z -> datetime)
    (cams : option (list (string * string))) (loaded : list SessionRecord)
  : Manager :=
  mkManager sdir edir zone
            (match cams with
             | Some (c :: cs) => c :: cs
             | _ => default_cameras
             end)
            default_metadata None loaded.

(** [set_metadata] *)
Definition set_metadata (m : Manager)
    (mouse rtype user : option string) (chmb : option Z)
  : Manager * SessionMetadata * list Event :=
  let p0 := pending_metadata m in
  let p1 := match mouse with
            | Some v => mkSessionMetadata v (recording_type p0) (user_name p0) (chamber p0)
            | None => p0 end in
  let p2 := match rtype with
            | Some v => mkSessionMetadata (mouse_id p1) v (user_name p1) (chamber p1)
            | None => p1 end in
  let p3 := match user with
            | Some v => mkSessionMetadata (mouse_id p2) (recording_type p2) v (chamber p2)
            | None => p2 end in
  let p4 := match chmb with
            | Some v => mkSessionMetadata (mouse_id p3) (recording_type p3) (user_name p3) v
            | None => p3 end in
  (with_pending m p4, p4, [Log_metadata_updated p4]).

(** [clear_metadata] *)
Definition clear_metadata (m : Manager) : Manager * list Event :=
  (with_pending m default_metadata, [Log_metadata_cleared]).

(** What the world supplies to [start_session]: the clock and [uuid4()]. *)
Record StartInput : Type := mkStartInput {
  start_now : Z;
  uuid4 : string
}.

(** [start_session] *)
Definition start_session (m : Manager) (w : StartInput)
    (radiens_base_name radiens_file_path : string)
  : Manager * outcome SessionRecord * list Event :=
  let now_utc := start_now w in
  let now_local := tz m now_utc in
  let meta := pending_metadata m in
  let camera_key := fstr ["chamber_"; str_int (chamber meta)] in
  let camera_id :=
    dict_get (cameras m) camera_key (fstr ["pi_cam_"; str_int (chamber meta)]) in
  let session :=
    mkSessionRecord (uuid4 w) now_utc 0 (isoformat now_local) "" 0
                    (mouse_id meta) (recording_type meta) (user_name meta)
                    (chamber meta) camera_id
                    radiens_base_name radiens_file_path
                    "" "pending" "skipped" in
  (with_active m (Some session), Returns session,
   [if is_default meta then Log_started_without_metadata
    else Log_session_started session]).

(** [round(x, 1)] on a difference of instants: the nearest tenth of a
    second.  The code rounds a binary float, which sits on one side of a
    half-way point; integer milliseconds can sit on it, and there this
    function picks the even tenth.  Nothing below relies on that choice. *)
Definition round_tenth (ms : Z) : Z :=
  let q := ms / 100 in
  let r := ms mod 100 in
  100 * (if r <? 50 then q
         else if 50 <? r then q + 1
         else if Z.even q then q else q + 1).

(** [_generate_filename] *)
Definition _generate_filename (m : Manager) (s : SessionRecord) : string :=
  let start_local := tz m (start_time_utc s) in
  let timestamp := strftime_ymdHM start_local in
  let mouse := replace " " "_" (session_mouse_id s) in
  let rec_type := replace " " "_" (session_recording_type s) in
  fstr [timestamp; "_"; mouse; "_"; rec_type; ".mp4"].

(** [_write_session_json]; [write] is what opening and dumping the file
    does. *)
Definition _write_session_json (m : Manager) (s : SessionRecord)
    (write : outcome unit) : list Event :=
  let base :=
    if String.eqb (video_filename s) "" then session_id s
    else rsplit1 "." (video_filename s) in
  let json_filename := fstr [base; "_session.json"] in
  let json_path := mkPath (sessions_dir m) json_filename in
  match write with
  | Returns _ => [Json_written json_path s]
  | Raises e => [Log_json_failed json_path e]
  end.

(** What the world supplies to [end_session] and [abort_session]. *)
Record EndInput : Type := mkEndInput {
  end_now : Z;
  write : outcome unit
}.

Definition close (m : Manager) (s : SessionRecord) (now_utc : Z)
    (status : string) : SessionRecord :=
  let s1 :=
    mkSessionRecord (session_id s) (start_time_utc s) now_utc
                    (start_time_local s) (isoformat (tz m now_utc))
                    (round_tenth (now_utc - start_time_utc s))
                    (session_mouse_id s) (session_recording_type s)
                    (session_user_name s) (session_chamber s) (camera s)
                    (radiens_xdat_filename s) (radiens_xdat_path s)
                    (video_filename s) status (nas_transfer_status s) in
  mkSessionRecord (session_id s1) (start_time_utc s1) (end_time_utc s1)
                  (start_time_local s1) (end_time_local s1)
                  (duration_seconds s1)
                  (session_mouse_id s1) (session_recording_type s1)
                  (session_user_name s1) (session_chamber s1) (camera s1)
                  (radiens_xdat_filename s1) (radiens_xdat_path s1)
                  (_generate_filename m s1) (export_status s1)
                  (nas_transfer_status s1).

(** [end_session] *)
Definition end_session (m : Manager) (w : EndInput)
  : Manager * option SessionRecord * list Event :=
  match active_session m with
  | None => (m, None, [Log_no_active_session])
  | Some s0 =>
      let session := close m s0 (end_now w) (export_status s0) in
      let ev_end :=
        [Log_session_ended (duration_seconds session) (video_filename session)] in
      let ev_json := _write_session_json m session (write w) in
      let m1 := with_history m (history m ++ [session]) in
      let m2 := with_active m1 None in
      let '(m3, ev_clear) := clear_metadata m2 in
      (m3, Some session, ev_end ++ ev_json ++ ev_clear)
  end.

(** [abort_session] *)
Definition abort_session (m : Manager) (w : EndInput) (reason : string)
  : Manager * option SessionRecord * list Event :=
  match active_session m with
  | None => (m, None, [])
  | Some s0 =>
      let session := close m s0 (end_now w) (fstr ["aborted: "; reason]) in
      let ev_abort := [Log_session_aborted reason (duration_seconds session)] in
      let ev_json := _write_session_json m session (write w) in
      let m1 := with_history m (history m ++ [session]) in
      let m2 := with_active m1 None in
      let '(m3, ev_clear) := clear_metadata m2 in
      (m3, Some session, ev_abort ++ ev_json ++ ev_clear)
  end.

(** [update_export_status]; the history holds records by value, so the last
    entry is replaced by its updated copy. *)
Definition update_export_status (m : Manager) (status : string)
    (write : outcome unit) : Manager * list Event :=
  match rev (history m) with
  | [] => (m, [])
  | s :: before =>
      let s1 :=
        mkSessionRecord (session_id s) (start_time_utc s) (end_time_utc s)
                        (start_time_local s) (end_time_local s)
                        (duration_seconds s)
                        (session_mouse_id s) (session_recording_type s)
                        (session_user_name s) (session_chamber s) (camera s)
                        (radiens_xdat_filename s) (radiens_xdat_path s)
                        (video_filename s) status (nas_transfer_status s) in
      (with_history m (rev before ++ [s1]), _write_session_json m s1 write)
  end.

(** The calls the API layer makes on the pending metadata. *)
Inductive MetadataCall : Type :=
| Set_metadata (mouse rtype user : option string) (chmb : option Z)
| Clear_metadata.

Definition apply_call (m : Manager) (c : MetadataCall) : Manager :=
  match c with
  | Set_metadata mouse rtype user chmb =>
      fst (fst (set_metadata m mouse rtype user chmb))
  | Clear_metadata => fst (clear_metadata m)
  end.

Definition apply_calls (m : Manager) (cs : list MetadataCall) : Manager :=
  fold_left apply_call cs m.

(** The metadata a session carries. *)
Definition session_metadata (s : SessionRecord) : SessionMetadata :=
  mkSessionMetadata (session_mouse_id s) (session_recording_type s)
                    (session_user_name s) (session_chamber s).

(** Whether a call names a mouse id, a recording type or a user name. *)
Definition names_a_field (c : MetadataCall) : bool :=
  match c with
  | Set_metadata (Some _) _ _ _ => true
  | Set_metadata _ (Some _) _ _ => true
  | Set_metadata _ _ (Some _) _ => true
  | _ => false
  end.

(** The calls made since the last [clear_metadata], oldest first. *)
Definition since_last_clear (cs : list MetadataCall) : list MetadataCall :=
  fold_left (fun acc c => match c with
                          | Clear_metadata => []
                          | _ => acc ++ [c]
                          end) cs [].

Definition arg_mouse (c : MetadataCall) : option string :=
  match c with Set_metadata a _ _ _ => a | Clear_metadata => None end.
Definition arg_type (c : MetadataCall) : option string :=
  match c with Set_metadata _ a _ _ => a | Clear_metadata => None end.
Definition arg_user (c : MetadataCall) : option string :=
  match c with Set_metadata _ _ a _ => a | Clear_metadata => None end.

(** The value most recently given for one field since the last
    [clear_metadata], if any. *)
Definition latest (arg : MetadataCall -> option string)
    (cs : list MetadataCall) : option string :=
  fold_left (fun acc c => match c with
                          | Clear_metadata => None
                          | _ => match arg c with Some v => Some v | None => acc end
                          end) cs None.

Definition placeholder_or_unset (o : option string) : Prop :=
  match o with Some v => v = "unknown" | None => True end.

(** The ranges a [datetime] keeps its fields in. *)
Definition valid_datetime (dt : datetime) : Prop :=
  1 <= year dt <= 9999 /\ 1 <= month dt <= 12 /\ 1 <= day dt <= 31
  /\ 0 <= hour dt <= 23 /\ 0 <= minute dt <= 59.

Definition is_digit (c : ascii) : bool :=
  (48 <=? nat_of_ascii c)%nat && (nat_of_ascii c <=? 57)%nat.

Fixpoint all_digits (s : string) : bool :=
  match s with
  | EmptyString => true
  | String c rest => is_digit c && all_digits rest
  end.

(** The number a string of decimal digits denotes. *)
Definition decimal_value (s : string) : Z :=
  fold_left (fun acc c => 10 * acc + (Z.of_nat (nat_of_ascii c) - 48))
            (list_ascii_of_string s) 0.

(** [b] is [a] with every space turned into an underscore and nothing else
    touched. *)
Definition underscored (a b : string) : Prop :=
  String.length b = String.length a
  /\ forall i, String.get i b
              = option_map (fun c => if Ascii.eqb c " " then "_"%char else c)
                           (String.get i a).

(** A stand-in for the zone conversion, a manager built with it, and the
    same manager with a session open. *)
Definition seoul (t : Z) : datetime :=
  mkDatetime 2026 3 (1 + (t / 86400000) mod 28) ((t / 3600000) mod 24)
             ((t / 60000) mod 60) ((t / 1000) mod 60) 0 540.

Definition fresh : Manager :=
  init "/opt/neurosurveillance/sessions" "/opt/neurosurveillance/exports"
       seoul None [].

Definition busy : Manager :=
  fst (fst (start_session fresh (mkStartInput 1000 "id-1") "rec_a" "/data")).


Definition or_placeholder (o : option string) : string :=
  match o with Some v => v | None => "unknown" end.

Definition spaced : SessionRecord :=
  mkSessionRecord "id-9" 7500000 0 "" "" 0 "HET CF3" "sleep dep" "andrea" 1
                  "pi_cam_1" "" "" "" "pending" "skipped".

(** [has_active_session] *)
Definition has_active_session (m : Manager) : bool :=
  match active_session m with Some _ => true | None => false end.

(** Everything the daemon and the API call on a manager. *)
Inductive ManagerCall : Type :=
| Call_set_metadata (mouse rtype user : option string) (chmb : option Z)
| Call_clear_metadata
| Call_start_session (w : StartInput) (base path : string)
| Call_end_session (w : EndInput)
| Call_abort_session (w : EndInput) (reason : string)
| Call_update_export_status (status : string) (write : outcome unit).

Definition apply_manager_call (m : Manager) (c : ManagerCall) : Manager :=
  match c with
  | Call_set_metadata a b u k => fst (fst (set_metadata m a b u k))
  | Call_clear_metadata => fst (clear_metadata m)
  | Call_start_session w b p => fst (fst (start_session m w b p))
  | Call_end_session w => fst (fst (end_session m w))
  | Call_abort_session w r => fst (fst (abort_session m w r))
  | Call_update_export_status st wr => fst (update_export_status m st wr)
  end.

Definition apply_manager_calls (m : Manager) (cs : list ManagerCall) : Manager :=
  fold_left apply_manager_call cs m.

(** A record with its export status put to [status]. *)
Definition with_export_status (s : SessionRecord) (status : string)
  : SessionRecord :=
  mkSessionRecord (session_id s) (start_time_utc s) (end_time_utc s)
                  (start_time_local s) (end_time_local s) (duration_seconds s)
                  (session_mouse_id s) (session_recording_type s)
                  (session_user_name s) (session_chamber s) (camera s)
                  (radiens_xdat_filename s) (radiens_xdat_path s)
                  (video_filename s) status (nas_transfer_status s).

(** A history with the export statuses blanked: what stays of a record once
    it is closed. *)
Definition settled (h : list SessionRecord) : list SessionRecord :=
  map (fun s => with_export_status s "") h.

(** [l1] is an initial segment of [l2]. *)
Definition prefix_of {A : Type} (l1 l2 : list A) : Prop :=
  exists rest, l2 = l1 ++ rest.

(** The second argument if given, else the first. *)
Definition later {A : Type} (a b : option A) : option A :=
  match b with Some _ => b | None => a end.

(** The path of the sidecar file of a session. *)
Definition sidecar_path (m : Manager) (s : SessionRecord) : path :=
  mkPath (sessions_dir m)
         (fstr [(if String.eqb (video_filename s) "" then session_id s
                 else rsplit1 "." (video_filename s));
                "_session.json"]).

End SessionManager.

(** ** frigate_controller.py *)
Module FrigateController.

Definition fstr (parts : list string) : string := String.concat "" parts.

(** Seconds between export status checks and the ceiling of the wait, in
    milliseconds. *)
Definition EXPORT_POLL_INTERVAL : Z := 2000.
Definition EXPORT_TIMEOUT : Z := 300000.

(** A parsed JSON document, as [response.json()] returns it. *)
#[warnings="-register-all"] Inductive json : Type :=
| JNull
| JBool (b : bool)
| JNum (n : Z)
| JStr (s : string)
| JArr (items : list json)
| JObj (fields : list (string * json)).

(** Truth value of a Python object. *)
Definition truthy (j : json) : bool :=
  match j with
  | JNull => false
  | JBool b => b
  | JNum n => negb (n =? 0)
  | JStr s => negb (String.eqb s "")
  | JArr items => match items with [] => false | _ => true end
  | JObj fields => match fields with [] => false | _ => true end
  end.

(** [a or b] *)
Definition py_or (a b : json) : json := if truthy a then a else b.

(** [d.get(key)] on a dict. *)
Fixpoint dict_get (fields : list (string * json)) (key : string) : json :=
  match fields with
  | [] => JNull
  | (k, v) :: rest => if String.eqb k key then v else dict_get rest key
  end.

(** [j == s] for a string [s]. *)
Definition eq_str (j : json) (s : string) : bool :=
  match j with JStr v => String.eqb v s | _ => false end.

(** [type(j).__name__] *)
Definition type_name (j : json) : string :=
  match j with
  | JNull => "NoneType"
  | JBool _ => "bool"
  | JNum _ => "int"
  | JStr _ => "str"
  | JArr _ => "list"
  | JObj _ => "dict"
  end.

(** [for export in exports]: what iterating over the document yields. *)
Definition iterate (j : json) : outcome (list json) :=
  match j with
  | JArr items => Returns items
  | JObj fields => Returns (map (fun kv => JStr (fst kv)) fields)
  | JStr s => Returns (map (fun c => JStr (String c EmptyString))
                           (list_ascii_of_string s))
  | _ => Raises (fstr ["'"; type_name j; "' object is not iterable"])
  end.

Inductive MqttClient : Type := mqtt_client.

Record Controller : Type := mkController {
  mqtt_host : string;
  mqtt_port : Z;
  frigate_url : string;
  cameras : list (string * string);
  _mqtt_client : option MqttClient;
  _mqtt_connected : bool
}.

(** [s.rstrip(c)] for a one-character [c]. *)
Fixpoint rstrip (c : ascii) (s : string) : string :=
  match s with
  | EmptyString => EmptyString
  | String a rest =>
      match rstrip c rest with
      | EmptyString => if Ascii.eqb a c then EmptyString else String a EmptyString
      | r => String a r
      end
  end.

Definition default_cameras : list (string * string) :=
  [("chamber_0", "pi_cam_0"); ("chamber_1", "pi_cam_1")].

(** [FrigateController.__init__] *)
Definition init (host : string) (port : Z) (url : string)
    (cams : option (list (string * string))) : Controller :=
  mkController host port (rstrip "/" url)
               (match cams with
                | Some (c :: cs) => c :: cs
                | _ => default_cameras
                end)
               None false.

Definition with_link (c : Controller) (cl : option MqttClient) (up : bool)
  : Controller :=
  mkController (mqtt_host c) (mqtt_port c) (frigate_url c) (cameras c) cl up.

(** [_on_connect] and [_on_disconnect], run by the network loop. *)
Definition _on_connect (c : Controller) (reason_code : Z) : Controller :=
  if reason_code =? 0 then with_link c (_mqtt_client c) true else c.

Definition _on_disconnect (c : Controller) (reason_code : Z) : Controller :=
  with_link c (_mqtt_client c) false.

Inductive Event : Type :=
| Call_set_recording (camera_id : string) (enabled : bool)
| Publish (topic payload : string) (qos : Z)
| Log_not_connected
| Log_published (payload topic : string)
| Log_publish_failed (msg : string)
| Log_stop_failed (key camera_id : string)
| Log_waiting (export_id : string)
| Http_get (url : string) (at_time : Z)
| Log_export_completed (export_id : string)
| Log_check_failed (msg : string)
| Sleep (duration : Z)
| Log_export_timed_out (export_id : string) (after : Z).

(** What the transport does with one publish: [publish()] raises, the
    message cannot be queued so that [wait_for_publish()] raises, the broker
    acknowledges it after [delay] milliseconds, or no acknowledgment ever
    comes. *)
Inductive PublishInput : Type :=
| Publish_raises (msg : string)
| Wait_raises (msg : string)
| Ack_after (delay : Z)
| Ack_never.

(** paho's [MQTTMessageInfo.wait_for_publish(timeout)]: blocks until the
    message is acknowledged or [timeout] has passed and then returns None in
    either case; [is_published()] tells the two apart.  The result here is
    (is_published, time spent). *)
Definition wait_for_publish (w : PublishInput) (timeout : Z)
  : outcome (bool * Z) :=
  match w with
  | Publish_raises e => Raises e
  | Wait_raises e => Raises e
  | Ack_after delay =>
      if delay <=? timeout then Returns (true, Z.max 0 delay)
      else Returns (false, timeout)
  | Ack_never => Returns (false, timeout)
  end.

(** [set_recording]: the returned flag, the time spent waiting, the events. *)
Definition set_recording (c : Controller) (w : PublishInput)
    (camera_id : string) (enabled : bool) : bool * Z * list Event :=
  let enter := Call_set_recording camera_id enabled in
  if negb (_mqtt_connected c)
     || match _mqtt_client c with None => true | Some _ => false end
  then (false, 0, [enter; Log_not_connected])
  else
    let topic := fstr ["frigate/"; camera_id; "/recordings/set"] in
    let payload := if enabled then "ON" else "OFF" in
    match w with
    | Publish_raises e => (false, 0, [enter; Log_publish_failed e])
    | _ =>
        match wait_for_publish w 5000 with
        | Raises e =>
            (false, 0, [enter; Publish topic payload 1; Log_publish_failed e])
        | Returns (_, spent) =>
            (true, spent,
             [enter; Publish topic payload 1; Log_published payload topic])
        end
    end.

(** The [for key, camera_id in self.cameras.items()] loop of
    [stop_all_recording]; the [k]-th call of [set_recording] meets the
    transport behaviour [world k]. *)
Fixpoint stop_all_loop (c : Controller) (world : nat -> PublishInput)
    (k : nat) (items : list (string * string)) (success : bool)
  : bool * list Event :=
  match items with
  | [] => (success, [])
  | (key, camera_id) :: rest =>
      let '(ok, _, evs) := set_recording c (world k) camera_id false in
      let '(success1, ev_log) :=
        if negb ok then (false, [Log_stop_failed key camera_id])
        else (success, []) in
      let '(r, evs_rest) := stop_all_loop c world (S k) rest success1 in
      (r, evs ++ ev_log ++ evs_rest)
  end.

(** [stop_all_recording] *)
Definition stop_all_recording (c : Controller) (world : nat -> PublishInput)
  : bool * list Event :=
  stop_all_loop c world 0 (cameras c) true.

(** What one request to the export list does: how long it takes and what
    [response.json()] gives, or the exception raised on the way. *)
Record ExportsReply : Type := mkExportsReply {
  took : N;
  reply : outcome json
}.

(** The [for export in exports] scan: the first dict whose id, or name when
    the id is missing or falsy, equals [export_id]; [.get] on anything that
    is not a dict raises. *)
Fixpoint scan (items : list json) (export_id : string)
  : outcome (option json) :=
  match items with
  | [] => Returns None
  | export :: rest =>
      match export with
      | JObj fields =>
          let eid := py_or (dict_get fields "id") (dict_get fields "name") in
          if eq_str eid export_id then Returns (Some export)
          else scan rest export_id
      | _ =>
          Raises (fstr ["'"; type_name export;
                        "' object has no attribute 'get'"])
      end
  end.

(** The body of the [try] in [wait_for_export]. *)
Definition check (r : ExportsReply) (export_id : string)
  : outcome (option json) :=
  match reply r with
  | Raises e => Raises e
  | Returns exports =>
      match iterate exports with
      | Raises e => Raises e
      | Returns items => scan items export_id
      end
  end.

(** The [while time.time() < deadline] loop; [t] is the clock at the loop
    head, the [k]-th request meets [world k].  [None] when the fuel runs out
    before the loop ends. *)
Fixpoint wait_loop (fuel : nat) (url export_id : string)
    (world : nat -> ExportsReply) (k : nat) (t deadline : Z)
  : option (option json * list Event) :=
  match fuel with
  | O => None
  | S fuel1 =>
      if t <? deadline then
        let t1 := t + Z.of_N (took (world k)) in
        match check (world k) export_id with
        | Returns (Some export) =>
            Some (Some export, [Http_get url t; Log_export_completed export_id])
        | Returns None =>
            match wait_loop fuel1 url export_id world (S k)
                            (t1 + EXPORT_POLL_INTERVAL) deadline with
            | Some (r, evs) =>
                Some (r, Http_get url t :: Sleep EXPORT_POLL_INTERVAL :: evs)
            | None => None
            end
        | Raises e =>
            match wait_loop fuel1 url export_id world (S k)
                            (t1 + EXPORT_POLL_INTERVAL) deadline with
            | Some (r, evs) =>
                Some (r, Http_get url t :: Log_check_failed e
                         :: Sleep EXPORT_POLL_INTERVAL :: evs)
            | None => None
            end
        end
      else Some (None, [Log_export_timed_out export_id EXPORT_TIMEOUT])
  end.

(** [wait_for_export], entered when the clock reads [t0]. *)
Definition wait_for_export (fuel : nat) (c : Controller) (export_id : string)
    (world : nat -> ExportsReply) (t0 : Z)
  : option (option json * list Event) :=
  let url := fstr [frigate_url c; "/api/exports"] in
  let deadline := t0 + EXPORT_TIMEOUT in
  match wait_loop fuel url export_id world 0 t0 deadline with
  | Some (r, evs) => Some (r, Log_waiting export_id :: evs)
  | None => None
  end.

(** Enough fuel for any wait: every round moves the clock by at least the
    poll interval. *)
Definition enough : nat := 151.



(** Whether a listed record is flagged as still being produced: the truth
    value of its [in_progress] entry. *)
Definition in_progress (export : json) : bool :=
  match export with
  | JObj fields => truthy (dict_get fields "in_progress")
  | _ => false
  end.





Definition is_call (e : Event) : bool :=
  match e with Call_set_recording _ _ => true | _ => false end.

(** The [set_recording] calls among the events, in order. *)
Definition calls (evs : list Event) : list Event := filter is_call evs.

(** What each camera's own [set_recording] call returns, in list order. *)
Fixpoint individual_results (c : Controller) (world : nat -> PublishInput)
    (k : nat) (items : list (string * string)) : list bool :=
  match items with
  | [] => []
  | (_, camera_id) :: rest =>
      fst (fst (set_recording c (world k) camera_id false))
      :: individual_results c world (S k) rest
  end.

(** A controller whose broker connection is up. *)
Definition linked : Controller :=
  _on_connect
    (with_link (init "127.0.0.1" 1883 "http://127.0.0.1:5000/" None)
               (Some mqtt_client) false)
    0.

(** [d.get(key)] on the cameras dict: None when the key is missing. *)
Fixpoint cameras_get (d : list (string * string)) (key : string)
  : option string :=
  match d with
  | [] => None
  | (k, v) :: rest => if String.eqb k key then Some v else cameras_get rest key
  end.

(** [get_camera_id] *)
Definition get_camera_id (c : Controller) (chamber : Z) : outcome string :=
  let key := fstr ["chamber_"; SessionManager.str_int chamber] in
  match cameras_get (cameras c) key with
  | None =>
      Raises (fstr ["No camera configured for chamber ";
                    SessionManager.str_int chamber; " (key: "; key; ")"])
  | Some camera => Returns camera
  end.

(** [disconnect_mqtt]; [stopping] is what [loop_stop()] and [disconnect()]
    do.  The second component is the warning logged, if any. *)
Definition disconnect_mqtt (c : Controller) (stopping : outcome unit)
  : Controller * option string :=
  match _mqtt_client c with
  | None => (c, None)
  | Some _ =>
      (with_link c (_mqtt_client c) false,
       match stopping with Returns _ => None | Raises e => Some e end)
  end.

Definition is_publish (e : Event) : bool :=
  match e with Publish _ _ _ => true | _ => false end.

(** The messages handed to the broker, in order. *)
Definition publishes (evs : list Event) : list Event := filter is_publish evs.

Definition recording_topic (camera_id : string) : string :=
  fstr ["frigate/"; camera_id; "/recordings/set"].

(** Whether the transport lets [publish()] and [wait_for_publish()] return. *)
Definition delivers (w : PublishInput) : bool :=
  match w with
  | Ack_after _ | Ack_never => true
  | Publish_raises _ | Wait_raises _ => false
  end.

Definition ends_with_slash (s : string) : bool :=
  match rev (list_ascii_of_string s) with
  | c :: _ => Ascii.eqb c "/"
  | [] => false
  end.

Fixpoint slashes (n : nat) : string :=
  match n with O => EmptyString | S k => String "/" (slashes k) end.

End FrigateController.

(** ** api.py *)
Module Api.

(** [l[start:]] *)
Definition slice_from {A : Type} (start : Z) (l : list A) : list A :=
  let n := Z.of_nat (length l) in
  if start <? 0 then skipn (Z.to_nat (Z.max (n + start) 0)) l
  else skipn (Z.to_nat (Z.min start n)) l.

Record HistoryReply : Type := mkHistoryReply {
  count : Z;
  total : Z;
  sessions : list SessionManager.SessionRecord
}.

(** [get_session_history]; [limit_arg] is the [limit] query parameter read
    with [type=int], None when it is absent or not an integer.  An error is
    the message and the HTTP status. *)
Definition get_session_history (sm : option SessionManager.Manager)
    (limit_arg : option Z) : HistoryReply + string * Z :=
  match sm with
  | None => inr ("Session manager not initialized", 503)
  | Some m =>
      let limit := match limit_arg with Some n => n | None => 50 end in
      let limit := Z.max 1 (Z.min limit 500) in
      let history := SessionManager.history m in
      let recent := rev (slice_from (- limit) history) in
      inl (mkHistoryReply (Z.of_nat (length recent))
                          (Z.of_nat (length history)) recent)
  end.

End Api.

(** ** daemon.py *)
Module Daemon.

Inductive Event : Type :=
| Poller_event (e : RadiensPoller.Event)
| Manager_event (e : SessionManager.Event)
| Frigate_event (e : FrigateController.Event)
| Log_session_start_detected
| Log_enable_failed (camera : string)
| Log_session_active (s : SessionManager.SessionRecord)
| Log_session_end_detected
| Log_no_session_to_close
| Log_session_closed (s : SessionManager.SessionRecord)
| Start_export_thread (s : SessionManager.SessionRecord)
| Log_aborting
| Log_stopping_all
| Log_disconnecting
| Log_disconnect_warning (msg : string)
| Log_stopped.

(** The daemon: its three components and the two run flags. *)
Record SessionDaemon : Type := mkSessionDaemon {
  _running : bool;
  _shutdown_event : bool;
  session_manager : SessionManager.Manager;
  frigate : FrigateController.Controller;
  poller : RadiensPoller.Poller
}.

(** The bound methods registered with the poller touch the manager and the
    controller only and return; towards the poller they are handlers that
    return, and what they do to the daemon is [_handle_session_start] and
    [_handle_session_end] below, run where the poller calls them. *)
Definition registered : RadiensPoller.Handler := fun _ => Returns tt.

(** [SessionDaemon.__init__]; both components get the same [cameras]. *)
Definition init (interval : Z) (sdir edir : string)
    (zone : Z -> SessionManager.datetime)
    (cams : option (list (string * string)))
    (loaded : list SessionManager.SessionRecord)
    (host : string) (port : Z) (url : string) : SessionDaemon :=
  mkSessionDaemon false false
    (SessionManager.init sdir edir zone cams loaded)
    (FrigateController.init host port url cams)
    (RadiensPoller.init interval (Some registered) (Some registered)).

Definition with_manager (d : SessionDaemon) (m : SessionManager.Manager)
  : SessionDaemon :=
  mkSessionDaemon (_running d) (_shutdown_event d) m (frigate d) (poller d).

Definition with_frigate (d : SessionDaemon) (c : FrigateController.Controller)
  : SessionDaemon :=
  mkSessionDaemon (_running d) (_shutdown_event d) (session_manager d) c (poller d).

Definition with_poller (d : SessionDaemon) (p : RadiensPoller.Poller)
  : SessionDaemon :=
  mkSessionDaemon (_running d) (_shutdown_event d) (session_manager d)
                  (frigate d) p.

(** What the world supplies during one pass of the main loop. *)
Record TickInput : Type := mkTickInput {
  tick_connect : RadiensPoller.ConnectInput;
  tick_poll : RadiensPoller.PollInput;
  tick_start : SessionManager.StartInput;
  tick_end : SessionManager.EndInput;
  tick_publish : FrigateController.PublishInput
}.

(** [_handle_session_start] *)
Definition _handle_session_start (d : SessionDaemon) (w : TickInput)
    (status : RadiensPoller.RadiensStatus) : SessionDaemon * list Event :=
  let '(m1, r, ev_m) :=
    SessionManager.start_session (session_manager d) (tick_start w)
      (RadiensPoller.base_name status) (RadiensPoller.file_path status) in
  let d1 := with_manager d m1 in
  match r with
  | Raises _ => (d1, Log_session_start_detected :: map Manager_event ev_m)
  | Returns session =>
      let '(ok, _, ev_f) :=
        FrigateController.set_recording (frigate d1) (tick_publish w)
          (SessionManager.camera session) true in
      (d1,
       Log_session_start_detected :: map Manager_event ev_m
       ++ map Frigate_event ev_f
       ++ (if negb ok then [Log_enable_failed (SessionManager.camera session)]
           else [])
       ++ [Log_session_active session])
  end.

(** [_handle_session_end]; the export runs in a thread of its own, started
    last. *)
Definition _handle_session_end (d : SessionDaemon) (w : TickInput)
    (status : RadiensPoller.RadiensStatus) : SessionDaemon * list Event :=
  let '(m1, r, ev_m) :=
    SessionManager.end_session (session_manager d) (tick_end w) in
  let d1 := with_manager d m1 in
  match r with
  | None =>
      (d1, Log_session_end_detected :: map Manager_event ev_m
           ++ [Log_no_session_to_close])
  | Some session =>
      let '(_, _, ev_f) :=
        FrigateController.set_recording (frigate d1) (tick_publish w)
          (SessionManager.camera session) false in
      (d1,
       Log_session_end_detected :: map Manager_event ev_m
       ++ map Frigate_event ev_f
       ++ [Log_session_closed session; Start_export_thread session])
  end.

(** What a poller event sets off in the daemon. *)
Definition dispatch (d : SessionDaemon) (w : TickInput)
    (e : RadiensPoller.Event) : SessionDaemon * list Event :=
  match e with
  | RadiensPoller.Call_on_session_start st => _handle_session_start d w st
  | RadiensPoller.Call_on_session_end st => _handle_session_end d w st
  | _ => (d, [])
  end.

Fixpoint dispatch_all (d : SessionDaemon) (w : TickInput)
    (evs : list RadiensPoller.Event) : SessionDaemon * list Event :=
  match evs with
  | [] => (d, [])
  | e :: rest =>
      let '(d1, ev1) := dispatch d w e in
      let '(d2, ev2) := dispatch_all d1 w rest in
      (d2, Poller_event e :: ev1 ++ ev2)
  end.

(** One pass of the body of [_main_loop]: reconnect when the last poll
    failed, then poll. *)
Definition main_loop_pass (d : SessionDaemon) (w : TickInput)
  : SessionDaemon * list Event :=
  let p0 := poller d in
  let '(p1, ev_c) :=
    if RadiensPoller.is_connected p0 then (p0, [])
    else
      let '(p, _, evs) := RadiensPoller.connect p0 (tick_connect w) in (p, evs) in
  let '(p2, _, ev_p) := RadiensPoller.poll p1 (tick_poll w) in
  let '(d1, evs) := dispatch_all (with_poller d p2) w ev_p in
  (d1, map Poller_event ev_c ++ evs).

(** [_main_loop] over the passes the world allows: it goes on while the
    daemon runs and the shutdown event is clear. *)
Fixpoint _main_loop (d : SessionDaemon) (ws : list TickInput)
  : SessionDaemon * list Event :=
  match ws with
  | [] => (d, [])
  | w :: rest =>
      if _running d && negb (_shutdown_event d) then
        let '(d1, ev1) := main_loop_pass d w in
        let '(d2, ev2) := _main_loop d1 rest in
        (d2, ev1 ++ ev2)
      else (d, [])
  end.

(** What the world supplies to [stop]. *)
Record StopInput : Type := mkStopInput {
  stop_end : SessionManager.EndInput;
  stop_publish : FrigateController.PublishInput;
  stop_all : nat -> FrigateController.PublishInput;
  stop_disconnect : outcome unit
}.

(** [stop] *)
Definition stop (d : SessionDaemon) (w : StopInput)
  : SessionDaemon * list Event :=
  let d0 :=
    mkSessionDaemon false true (session_manager d) (frigate d) (poller d) in
  let '(d1, ev_abort) :=
    if SessionManager.has_active_session (session_manager d0) then
      let '(m1, r, ev_m) :=
        SessionManager.abort_session (session_manager d0) (stop_end w)
                                     "daemon shutdown" in
      let d1 := with_manager d0 m1 in
      match r with
      | Some session =>
          let '(_, _, ev_f) :=
            FrigateController.set_recording (frigate d1) (stop_publish w)
              (SessionManager.camera session) false in
          (d1, Log_aborting :: map Manager_event ev_m ++ map Frigate_event ev_f)
      | None => (d1, Log_aborting :: map Manager_event ev_m)
      end
    else (d0, []) in
  let '(_, ev_all) :=
    FrigateController.stop_all_recording (frigate d1) (stop_all w) in
  let '(c2, warn) :=
    FrigateController.disconnect_mqtt (frigate d1) (stop_disconnect w) in
  (with_frigate d1 c2,
   ev_abort ++ Log_stopping_all :: map Frigate_event ev_all
   ++ Log_disconnecting
   :: match warn with Some e => [Log_disconnect_warning e] | None => [] end
   ++ [Log_stopped]).

Definition frigate_events (evs : list Event) : list FrigateController.Event :=
  flat_map (fun e => match e with Frigate_event f => [f] | _ => [] end) evs.

(** The [set_recording] calls the daemon made, in order. *)
Definition recording_calls (evs : list Event) : list FrigateController.Event :=
  FrigateController.calls (frigate_events evs).

Definition export_threads (evs : list Event)
  : list SessionManager.SessionRecord :=
  flat_map (fun e => match e with Start_export_thread s => [s] | _ => [] end) evs.

(** Both handlers are registered, as [__init__] leaves them. *)
Definition wired (d : SessionDaemon) : Prop :=
  RadiensPoller.on_session_start (poller d) = Some registered
  /\ RadiensPoller.on_session_end (poller d) = Some registered.

(** The poll of this pass is answered with [a]. *)
Definition answered (w : TickInput) (a : RadiensPoller.AllegoStatus) : Prop :=
  RadiensPoller.get_status (tick_poll w) = Returns a.

(** A daemon in its main loop: broker connected, Radiens connected and last
    seen idle, no session open. *)
Definition awake : SessionDaemon :=
  mkSessionDaemon true false SessionManager.fresh FrigateController.linked
    (RadiensPoller.set_previous_state
       (RadiensPoller.started registered registered) RadiensPoller.OFF).

(** A pass in which Radiens reports [rec_str] at clock [t]. *)
Definition reading (rec_str : string) (t : Z) : TickInput :=
  mkTickInput RadiensPoller.Import_fails (RadiensPoller.answers rec_str t)
              (SessionManager.mkStartInput t "id-7")
              (SessionManager.mkEndInput t (Returns tt))
              (FrigateController.Ack_after 3).

(** A pass in which Radiens cannot be reached. *)
Definition unreachable (t : Z) : TickInput :=
  mkTickInput (RadiensPoller.Test_poll_raises "refused")
              (RadiensPoller.mkPollInput (Raises "refused") t)
              (SessionManager.mkStartInput t "id-8")
              (SessionManager.mkEndInput t (Returns tt))
              (FrigateController.Ack_after 3).

End Daemon.

(** ** Facts about the poller *)
Module RadiensPollerFacts.
Import RadiensPoller.

Lemma state_eqb_eq (a b : RecordingState) : state_eqb a b = true <-> a = b.
Proof. destruct a, b; simpl; split; congruence. Qed.

Lemma callbacks_app (l1 l2 : list Event) :
  callbacks (l1 ++ l2) = callbacks l1 ++ callbacks l2.
Proof. apply filter_app. Qed.

Lemma callbacks_poll_except p msg t evs p' st evs' :
  poll_except p msg t evs = (p', st, evs') ->
  callbacks evs' = callbacks evs /\ connected st = false
  /\ previous_state p' = previous_state p.
Proof.
  unfold poll_except. intros H. injection H as <- <- <-.
  rewrite callbacks_app.
  destruct (_ || _); simpl; rewrite ?app_nil_r; auto.
Qed.


Lemma run_cons p w ws :
  run p (w :: ws)
  = ((snd (fst (poll p w)), snd (poll p w)) :: fst (run (fst (fst (poll p w))) ws),
     snd (run (fst (fst (poll p w))) ws)).
Proof.
  simpl. destruct (poll p w) as [[p1 st] evs]. simpl.
  destruct (run p1 ws); reflexivity.
Qed.


Lemma last_reading_cons base w ws :
  last_reading base (w :: ws) = last_reading (last_reading base [w]) ws.
Proof. reflexivity. Qed.







(** C10: a poll made while the client is still None answers with a
    disconnected snapshot carrying the not-connected message, emits no event
    at all (so no handler is invoked) and returns the poller as it was:
    previous state, connected flag and error count included. *)
Theorem poll_without_client (p : Poller) (w : PollInput) :
  client p = None ->
  connected (snd (fst (poll p w))) = false
  /\ error (snd (fst (poll p w))) = Some "Not connected (call connect() first)"
  /\ recording (snd (fst (poll p w))) = UNKNOWN
  /\ snd (poll p w) = []
  /\ fst (fst (poll p w)) = p
  /\ previous_state (fst (fst (poll p w))) = previous_state p
  /\ is_connected (fst (fst (poll p w))) = is_connected p
  /\ consecutive_errors (fst (fst (poll p w))) = consecutive_errors p.
Proof.
  intros Hc. unfold poll. rewrite Hc. simpl. repeat split; reflexivity.
Qed.

Lemma poll_without_client_witness :
  let p := init 1000 (Some quiet) (Some quiet) in
  let w := answers "R_ON" 7 in
  client p = None
  /\ connected (snd (fst (poll p w))) = false
  /\ error (snd (fst (poll p w))) = Some "Not connected (call connect() first)"
  /\ recording (snd (fst (poll p w))) = UNKNOWN
  /\ snd (poll p w) = []
  /\ fst (fst (poll p w)) = p
  /\ previous_state (fst (fst (poll p w))) = previous_state p
  /\ is_connected (fst (fst (poll p w))) = is_connected p
  /\ consecutive_errors (fst (fst (poll p w))) = consecutive_errors p.
Proof.
  intros p w. split; [reflexivity|].
  exact (poll_without_client p w eq_refl).
Defined.

End RadiensPollerFacts.

(** ** Facts about the session manager *)
Module SessionManagerFacts.
Import SessionManager.

(** C7: with no active session, [end_session] returns None, logs its warning
    and hands the manager back unchanged: history, active slot and pending
    metadata are what they were. *)
Theorem end_session_without_active (m : Manager) (w : EndInput) :
  active_session m = None ->
  end_session m w = (m, None, [Log_no_active_session])
  /\ history (fst (fst (end_session m w))) = history m
  /\ active_session (fst (fst (end_session m w))) = None
  /\ pending_metadata (fst (fst (end_session m w))) = pending_metadata m.
Proof.
  intros H. unfold end_session. rewrite H. simpl. auto.
Qed.

Lemma end_session_without_active_witness :
  let w := mkEndInput 5000 (Returns tt) in
  active_session fresh = None
  /\ end_session fresh w = (fresh, None, [Log_no_active_session])
  /\ history (fst (fst (end_session fresh w))) = history fresh
  /\ active_session (fst (fst (end_session fresh w))) = None
  /\ pending_metadata (fst (fst (end_session fresh w))) = pending_metadata fresh.
Proof.
  intros w. split; [reflexivity|].
  exact (end_session_without_active fresh w eq_refl).
Defined.




(** C3 as the specification states it fails: after [set_metadata] and
    [start_session] the pending metadata still holds what was set, and a
    second [start_session] made straight away carries it again. *)
Lemma start_session_keeps_pending :
  let m1 := fst (fst (set_metadata fresh (Some "M1") (Some "basal") None (Some 0))) in
  let r2 := start_session m1 (mkStartInput 1000 "id-1") "rec_a" "/data" in
  let r3 := start_session (fst (fst r2)) (mkStartInput 2000 "id-2") "rec_b" "/data" in
  is_default (pending_metadata (fst (fst r2))) = false
  /\ option_map (fun s => is_default (session_metadata s))
       (active_session (fst (fst r3))) = Some false.
Proof. split; reflexivity. Qed.

(** C3, amended: [start_session] copies the pending metadata into the new
    session and leaves the pending metadata as it is; it is [end_session],
    closing that session, that resets the pending metadata to its defaults.
    So after start and end, [is_default] holds on the pending metadata, and
    the next [start_session] without an intervening [set_metadata] produces a
    session whose metadata fields are the default placeholders. *)
Theorem start_copies_end_resets (m : Manager) (w1 w2 : StartInput)
    (we : EndInput) (b1 p1 b2 p2 : string) :
  let r1 := start_session m w1 b1 p1 in
  let r2 := end_session (fst (fst r1)) we in
  let r3 := start_session (fst (fst r2)) w2 b2 p2 in
  (exists s1, snd (fst r1) = Returns s1
              /\ session_metadata s1 = pending_metadata m)
  /\ pending_metadata (fst (fst r1)) = pending_metadata m
  /\ (exists s2, snd (fst r2) = Some s2
                 /\ session_metadata s2 = pending_metadata m)
  /\ pending_metadata (fst (fst r2)) = default_metadata
  /\ is_default (pending_metadata (fst (fst r2))) = true
  /\ (exists s3, snd (fst r3) = Returns s3
                 /\ session_metadata s3 = default_metadata
                 /\ is_default (session_metadata s3) = true).
Proof.
  cbv zeta. repeat split.
  - eexists. split; [reflexivity|]. destruct m as [? ? ? ? [? ? ? ?] ? ?]. reflexivity.
  - eexists. split; [reflexivity|]. destruct m as [? ? ? ? [? ? ? ?] ? ?]. reflexivity.
  - eexists. split; [reflexivity|]. split; reflexivity.
Qed.

(** C5 as the specification states it fails: naming the placeholder itself
    is a call with a non-null mouse id, yet [is_default] still holds. *)
Lemma is_default_after_naming_placeholder :
  let cs := [Set_metadata (Some "unknown") None None None] in
  ~ (is_default (pending_metadata (apply_calls fresh cs)) = true
     <-> forallb (fun c => negb (names_a_field c)) (since_last_clear cs) = true).
Proof.
  intros cs [H _]. specialize (H eq_refl). discriminate H.
Qed.

Lemma apply_calls_snoc m cs c :
  apply_calls m (cs ++ [c]) = apply_call (apply_calls m cs) c.
Proof. unfold apply_calls. rewrite fold_left_app. reflexivity. Qed.

Lemma latest_snoc arg cs c :
  latest arg (cs ++ [c])
  = match c with
    | Clear_metadata => None
    | _ => match arg c with Some v => Some v | None => latest arg cs end
    end.
Proof. unfold latest. rewrite fold_left_app. reflexivity. Qed.

Lemma since_last_clear_snoc cs c :
  since_last_clear (cs ++ [c])
  = match c with
    | Clear_metadata => []
    | _ => since_last_clear cs ++ [c]
    end.
Proof. unfold since_last_clear. rewrite fold_left_app. reflexivity. Qed.

(** The pending fields after any run of calls on a manager constructed with
    default metadata. *)
Lemma pending_after_calls m cs :
  pending_metadata m = default_metadata ->
  mouse_id (pending_metadata (apply_calls m cs)) = or_placeholder (latest arg_mouse cs)
  /\ recording_type (pending_metadata (apply_calls m cs)) = or_placeholder (latest arg_type cs)
  /\ user_name (pending_metadata (apply_calls m cs)) = or_placeholder (latest arg_user cs).
Proof.
  intros Hm. induction cs as [|c cs IH] using rev_ind.
  - simpl. rewrite Hm. auto.
  - rewrite apply_calls_snoc, !latest_snoc.
    destruct IH as (I1 & I2 & I3).
    destruct c as [[a|] [b|] [u|] [k|] | ]; simpl; auto.
Qed.

Lemma unset_since_clear arg cs :
  (forall c, arg c <> None -> names_a_field c = true) ->
  forallb (fun c => negb (names_a_field c)) (since_last_clear cs) = true ->
  latest arg cs = None.
Proof.
  intros Harg. induction cs as [|c cs IH] using rev_ind; [reflexivity|].
  rewrite since_last_clear_snoc, latest_snoc.
  destruct c as [a b u k|]; [|reflexivity].
  rewrite forallb_app. intros H. apply andb_prop in H. destruct H as [H1 H2].
  cbn [forallb] in H2. rewrite andb_true_r in H2.
  destruct (arg (Set_metadata a b u k)) eqn:E.
  - assert (names_a_field (Set_metadata a b u k) = true)
      by (apply Harg; rewrite E; discriminate).
    rewrite H in H2. discriminate.
  - auto.
Qed.

Lemma or_placeholder_eqb o :
  String.eqb (or_placeholder o) "unknown" = true <-> placeholder_or_unset o.
Proof.
  destruct o as [v|]; simpl.
  - apply String.eqb_eq.
  - tauto.
Qed.

(** C5, amended: on a manager constructed with default metadata, after any
    sequence of [set_metadata] and [clear_metadata] calls [is_default] holds
    exactly when, for each of mouse id, recording type and user name, the
    value most recently given since the last [clear_metadata] is the
    placeholder "unknown" or no value was given at all.  In particular it
    holds when no call since construction or the last [clear_metadata] named
    any of the three. *)
Theorem is_default_iff_latest_placeholder (m : Manager)
    (cs : list MetadataCall) :
  pending_metadata m = default_metadata ->
  (is_default (pending_metadata (apply_calls m cs)) = true
   <-> placeholder_or_unset (latest arg_mouse cs)
       /\ placeholder_or_unset (latest arg_type cs)
       /\ placeholder_or_unset (latest arg_user cs))
  /\ (forallb (fun c => negb (names_a_field c)) (since_last_clear cs) = true ->
      is_default (pending_metadata (apply_calls m cs)) = true).
Proof.
  intros Hm. destruct (pending_after_calls m cs Hm) as (E1 & E2 & E3).
  assert (Hiff : is_default (pending_metadata (apply_calls m cs)) = true
   <-> placeholder_or_unset (latest arg_mouse cs)
       /\ placeholder_or_unset (latest arg_type cs)
       /\ placeholder_or_unset (latest arg_user cs)).
  { unfold is_default. rewrite E1, E2, E3, !andb_true_iff, !or_placeholder_eqb.
    tauto. }
  split; [exact Hiff|].
  intros Hn. apply Hiff.
  rewrite (unset_since_clear arg_mouse cs), (unset_since_clear arg_type cs),
          (unset_since_clear arg_user cs); simpl; auto;
    intros [[?|] [?|] [?|] ?|]; simpl; congruence.
Qed.

Lemma is_default_iff_latest_placeholder_witness :
  let cs := [Set_metadata (Some "M1") None None (Some 1);
             Clear_metadata;
             Set_metadata None (Some "unknown") None None] in
  pending_metadata fresh = default_metadata
  /\ (is_default (pending_metadata (apply_calls fresh cs)) = true
      <-> placeholder_or_unset (latest arg_mouse cs)
          /\ placeholder_or_unset (latest arg_type cs)
          /\ placeholder_or_unset (latest arg_user cs))
  /\ (forallb (fun c => negb (names_a_field c)) (since_last_clear cs) = true ->
      is_default (pending_metadata (apply_calls fresh cs)) = true).
Proof.
  intros cs. split; [reflexivity|].
  exact (is_default_iff_latest_placeholder fresh cs eq_refl).
Defined.

Lemma digit_code (d : Z) :
  nat_of_ascii (digit d) = (48 + Z.to_nat (d mod 10))%nat.
Proof.
  unfold digit. apply nat_ascii_embedding.
  pose proof (Z.mod_pos_bound d 10 ltac:(lia)). lia.
Qed.

Lemma digit_value (d : Z) :
  Z.of_nat (nat_of_ascii (digit d)) - 48 = d mod 10.
Proof.
  rewrite digit_code. pose proof (Z.mod_pos_bound d 10 ltac:(lia)). lia.
Qed.

Lemma digit_is_digit (d : Z) : is_digit (digit d) = true.
Proof.
  unfold is_digit. rewrite digit_code.
  pose proof (Z.mod_pos_bound d 10 ltac:(lia)).
  apply andb_true_intro. split; apply Nat.leb_le; lia.
Qed.

Lemma two_digits (n : Z) :
  0 <= n < 100 -> 10 * ((n / 10) mod 10) + n mod 10 = n.
Proof.
  intros H. rewrite (Z.mod_small (n / 10) 10).
  - pose proof (Z.div_mod n 10 ltac:(lia)). lia.
  - split; [apply Z.div_pos; lia | apply Z.div_lt_upper_bound; lia].
Qed.

Lemma replace_length old new s :
  String.length (replace old new s) = String.length s.
Proof. induction s as [|c s IH]; simpl; congruence. Qed.

Lemma replace_get old new s : forall i,
  String.get i (replace old new s)
  = option_map (fun c => if Ascii.eqb c old then new else c) (String.get i s).
Proof.
  induction s as [|c s IH]; intros [|i]; simpl; auto.
Qed.

Lemma replace_underscored s : underscored s (replace " " "_" s).
Proof. split; [apply replace_length | apply replace_get]. Qed.

(** C8: the generated filename is the ten digits YYMMDDHHMM of the local
    start time, the mouse id and the recording type, each with its spaces
    turned into underscores, joined by underscores and followed by the
    [.mp4] extension; it depends on the manager and the session through
    these three inputs only, so equal inputs give equal filenames. *)
Theorem generate_filename_format (m : Manager) (s : SessionRecord) :
  let dt := tz m (start_time_utc s) in
  let ts := strftime_ymdHM dt in
  let subj := replace " " "_" (session_mouse_id s) in
  let typ := replace " " "_" (session_recording_type s) in
  valid_datetime dt ->
  _generate_filename m s
  = (ts ++ "_" ++ subj ++ "_" ++ typ ++ ".mp4")%string
  /\ String.length ts = 10%nat
  /\ all_digits ts = true
  /\ decimal_value ts
     = (year dt mod 100) * 100000000 + month dt * 1000000 + day dt * 10000
       + hour dt * 100 + minute dt
  /\ underscored (session_mouse_id s) subj
  /\ underscored (session_recording_type s) typ
  /\ (forall (m' : Manager) (s' : SessionRecord),
        tz m' (start_time_utc s') = dt ->
        session_mouse_id s' = session_mouse_id s ->
        session_recording_type s' = session_recording_type s ->
        _generate_filename m' s' = _generate_filename m s).
Proof.
  intros dt ts subj typ (Hy & Hmo & Hd & Hh & Hmi).
  split; [reflexivity|]. split; [reflexivity|]. split.
  { unfold ts, strftime_ymdHM, fstr, pad2. cbn [String.concat append all_digits].
    rewrite !digit_is_digit. reflexivity. }
  split.
  { unfold ts, strftime_ymdHM, fstr, pad2, decimal_value.
    cbn [String.concat append list_ascii_of_string fold_left].
    rewrite !digit_value.
    pose proof (Z.mod_pos_bound (year dt) 100 ltac:(lia)) as By.
    pose proof (two_digits (year dt mod 100) By) as Ey.
    pose proof (two_digits (month dt) ltac:(lia)) as Emo.
    pose proof (two_digits (day dt) ltac:(lia)) as Ed.
    pose proof (two_digits (hour dt) ltac:(lia)) as Eh.
    pose proof (two_digits (minute dt) ltac:(lia)) as Emi.
    lia. }
  split; [apply replace_underscored|]. split; [apply replace_underscored|].
  intros m' s' Ht Hm Hr. unfold _generate_filename. fold dt.
  rewrite Ht, Hm, Hr. reflexivity.
Qed.

Lemma generate_filename_format_witness :
  valid_datetime (tz fresh (start_time_utc spaced))
  /\ _generate_filename fresh spaced = "2603010205_HET_CF3_sleep_dep.mp4"
  /\ decimal_value (strftime_ymdHM (tz fresh (start_time_utc spaced)))
     = 2603010205.
Proof.
  assert (V : valid_datetime (tz fresh (start_time_utc spaced)))
    by (vm_compute; repeat split; discriminate).
  split; [exact V|].
  destruct (generate_filename_format fresh spaced V) as (E & _ & _ & D & _).
  split; [rewrite E; reflexivity | rewrite D; reflexivity].
Defined.

End SessionManagerFacts.

(** ** Facts about the recording controller *)
Module FrigateControllerFacts.
Import FrigateController.

Lemma calls_app (l1 l2 : list Event) : calls (l1 ++ l2) = calls l1 ++ calls l2.
Proof. apply filter_app. Qed.

(** One [set_recording] call announces itself once, whatever happens next. *)
Lemma calls_set_recording c w cam en :
  calls (snd (set_recording c w cam en)) = [Call_set_recording cam en].
Proof.
  unfold set_recording.
  destruct (negb (_mqtt_connected c) || _); [reflexivity|].
  destruct w as [e|e|d|]; simpl; try reflexivity.
  destruct (d <=? 5000); reflexivity.
Qed.

Lemma set_recording_not_connected c w cam en :
  _mqtt_connected c = false \/ _mqtt_client c = None ->
  set_recording c w cam en = (false, 0, [Call_set_recording cam en; Log_not_connected]).
Proof.
  unfold set_recording. intros [H|H]; rewrite H; simpl.
  - reflexivity.
  - rewrite orb_true_r. reflexivity.
Qed.

Lemma stop_all_loop_spec c world items : forall k success,
  fst (stop_all_loop c world k items success)
  = success && forallb (fun b => b) (individual_results c world k items)
  /\ calls (snd (stop_all_loop c world k items success))
     = map (fun kv => Call_set_recording (snd kv) false) items.
Proof.
  induction items as [|[key cam] rest IH]; intros k success.
  - simpl. rewrite andb_true_r. auto.
  - cbn [stop_all_loop individual_results forallb map snd].
    pose proof (calls_set_recording c (world k) cam false) as Hc.
    destruct (set_recording c (world k) cam false) as [[ok spent] evs].
    cbn [fst snd] in Hc |- *.
    destruct ok; cbn [negb].
    + destruct (IH (S k) success) as [I1 I2].
      destruct (stop_all_loop c world (S k) rest success) as [r evs'].
      cbn [fst snd] in *.
      rewrite !calls_app, Hc, I2, I1. simpl. auto.
    + destruct (IH (S k) false) as [I1 I2].
      destruct (stop_all_loop c world (S k) rest false) as [r evs'].
      cbn [fst snd] in *.
      rewrite !calls_app, Hc, I2, I1. simpl. rewrite andb_false_r. auto.
Qed.

Lemma individual_results_length c world items : forall k,
  length (individual_results c world k items) = length items.
Proof.
  induction items as [|[key cam] rest IH]; intros k; simpl;
    [reflexivity | rewrite IH; reflexivity].
Qed.

(** C9: [stop_all_recording] calls [set_recording(camera, False)] once for
    every configured camera, in the order of the dict and whatever the
    earlier calls returned, and its result is the conjunction of the
    individual results: true exactly when every call returned true.  With
    the first of two cameras failing to publish, the second is still sent
    its OFF and the overall result is false. *)
Theorem stop_all_recording_attempts_all (c : Controller)
    (world : nat -> PublishInput) :
  calls (snd (stop_all_recording c world))
  = map (fun kv => Call_set_recording (snd kv) false) (cameras c)
  /\ fst (stop_all_recording c world)
     = forallb (fun b => b) (individual_results c world 0 (cameras c))
  /\ (fst (stop_all_recording c world) = true
      <-> forall b, In b (individual_results c world 0 (cameras c)) -> b = true)
  /\ length (individual_results c world 0 (cameras c)) = length (cameras c)
  /\ stop_all_recording linked
       (fun k => match k with O => Publish_raises "broken pipe" | _ => Ack_after 3 end)
     = (false,
        [Call_set_recording "pi_cam_0" false; Log_publish_failed "broken pipe";
         Log_stop_failed "chamber_0" "pi_cam_0";
         Call_set_recording "pi_cam_1" false;
         Publish "frigate/pi_cam_1/recordings/set" "OFF" 1;
         Log_published "OFF" "frigate/pi_cam_1/recordings/set"]).
Proof.
  unfold stop_all_recording.
  destruct (stop_all_loop_spec c world (cameras c) 0%nat true) as [H1 H2].
  split; [exact H2|]. split; [exact H1|]. split.
  - rewrite H1. simpl. rewrite forallb_forall. reflexivity.
  - split; [apply individual_results_length | reflexivity].
Qed.

(** C6, where the code departs from it: the channel is connected, the
    message is published, and the acknowledgment never arrives.
    [wait_for_publish] gives up after 5000 ms and [set_recording] returns
    True all the same. *)
Theorem set_recording_unacknowledged_returns_true :
  _mqtt_connected linked = true
  /\ wait_for_publish Ack_never 5000 = Returns (false, 5000)
  /\ set_recording linked Ack_never "pi_cam_0" true
     = (true, 5000,
        [Call_set_recording "pi_cam_0" true;
         Publish "frigate/pi_cam_0/recordings/set" "ON" 1;
         Log_published "ON" "frigate/pi_cam_0/recordings/set"]).
Proof. repeat split. Qed.

Section Waiting.

Variables (url export_id : string) (world : nat -> ExportsReply) (t0 : Z).

Let deadline : Z := t0 + EXPORT_TIMEOUT.







End Waiting.



(** C4, where the code departs from it: the list shows the job with its
    [in_progress] entry still true.  The first request finds it listed,
    logs the export as completed and returns that record, against the
    docstring's "until the export is complete" and "dict if completed". *)
Theorem wait_for_export_returns_unfinished_job :
  let job := JObj [("id", JStr "abc"); ("in_progress", JBool true)] in
  let world := fun _ : nat => mkExportsReply 40 (Returns (JArr [job])) in
  in_progress job = true
  /\ wait_for_export enough linked "abc" world 0
     = Some (Some job,
             [Log_waiting "abc"; Http_get "http://127.0.0.1:5000/api/exports" 0;
              Log_export_completed "abc"]).
Proof. split; reflexivity. Qed.



End FrigateControllerFacts.

(** ** More facts about the poller *)
Module RadiensPollerMore.
Import RadiensPoller.

(** Case analysis on everything [poll] branches on. *)
Ltac poll_cases :=
  repeat match goal with
         | |- context [match ?x with _ => _ end] =>
             match type of x with
             | sumbool _ _ => fail 1
             | _ => destruct x eqn:?
             end; cbn [fst snd]
         end.

Lemma poll_raises p c w e :
  client p = Some c -> get_status w = Raises e ->
  poll p w = poll_except p e (now w) [].
Proof. intros Hc Hg. unfold poll. rewrite Hc, Hg. reflexivity. Qed.

Lemma run_failures ws : forall p c,
  client p = Some c ->
  max_silent_errors p = 5 ->
  Forall fails ws ->
  consecutive_errors (snd (run p ws))
  = consecutive_errors p + Z.of_nat (length ws)
  /\ previous_state (snd (run p ws)) = previous_state p
  /\ (ws <> [] -> is_connected (snd (run p ws)) = false)
  /\ forall i w, nth_error ws i = Some w ->
       exists st,
         nth_error (fst (run p ws)) i
         = Some (st, failure_log (consecutive_errors p + Z.of_nat i + 1) w)
         /\ connected st = false.
Proof.
  induction ws as [|w0 ws IH]; intros p c Hc Hm Hf.
  - simpl. repeat split; try lia; try congruence.
    intros [|i] w H; discriminate.
  - inversion Hf as [|? ? [e He] Hf']; subst.
    rewrite RadiensPollerFacts.run_cons, (poll_raises p c w0 e Hc He).
    unfold poll_except. cbn [fst snd].
    set (p1 := set_link p false (consecutive_errors p + 1)).
    destruct (IH p1 c Hc Hm Hf') as (I1 & I2 & I3 & I4).
    cbn [length]. rewrite I1, I2. unfold p1. cbn [set_link consecutive_errors previous_state].
    split; [lia|]. split; [reflexivity|]. split.
    + intros _. destruct ws as [|w1 ws'].
      * reflexivity.
      * apply I3. discriminate.
    + intros [|i] w Hn; cbn [nth_error] in Hn |- *.
      * injection Hn as <-. eexists. split.
        -- unfold failure_log. rewrite He, Hm. cbn [app Z.of_nat].
           rewrite Z.add_0_r. reflexivity.
        -- reflexivity.
      * destruct (I4 i w Hn) as (st & Hst & Hcn).
        exists st. split; [|exact Hcn]. unfold p1 in Hst. rewrite Hst.
        cbn [set_link consecutive_errors].
        replace (consecutive_errors p + 1 + Z.of_nat i + 1)
          with (consecutive_errors p + Z.of_nat (S i) + 1) by lia.
        reflexivity.
Qed.

(** X1: while [get_status()] keeps raising, every poll returns a
    disconnected snapshot, the error count goes up by one per poll, the
    stored previous state stays, and the n-th consecutive failure writes a
    warning exactly when n is 1 or a multiple of 5. *)
Theorem failed_polls_counted_and_rate_limited (p : Poller) (c : AllegoClient)
    (ws : list PollInput) :
  client p = Some c ->
  max_silent_errors p = 5 ->
  Forall fails ws ->
  consecutive_errors (snd (run p ws))
  = consecutive_errors p + Z.of_nat (length ws)
  /\ previous_state (snd (run p ws)) = previous_state p
  /\ (ws <> [] -> is_connected (snd (run p ws)) = false)
  /\ forall i w, nth_error ws i = Some w ->
       exists st,
         nth_error (fst (run p ws)) i
         = Some (st, failure_log (consecutive_errors p + Z.of_nat i + 1) w)
         /\ connected st = false.
Proof. apply run_failures. Qed.

Lemma failed_polls_counted_and_rate_limited_witness :
  let p := started quiet quiet in
  let down := mkPollInput (Raises "refused") 3 in
  let ws := [down; down; down; down; down; down] in
  (client p = Some allego_client /\ max_silent_errors p = 5 /\ Forall fails ws)
  /\ consecutive_errors (snd (run p ws)) = 6
  /\ map snd (fst (run p ws))
     = [[Log_poll_failed 1 "refused"]; []; []; [];
        [Log_poll_failed 5 "refused"]; []].
Proof.
  intros p down ws.
  assert (F : Forall fails ws) by (repeat constructor; exists "refused"; reflexivity).
  split; [repeat split; exact F|].
  destruct (failed_polls_counted_and_rate_limited p allego_client ws
              eq_refl eq_refl F) as (H & _).
  split; [exact H | reflexivity].
Defined.

(** X2: a start handler that raises is not lost.  The poll that called it
    comes back as a failed poll carrying the handler's message, the stored
    previous state stays OFF, and the next poll that reads R_ON calls the
    start handler again. *)
Theorem raising_start_handler_is_called_again (p : Poller) (c : AllegoClient)
    (hs : Handler) (w1 w2 : PollInput) (a1 a2 : AllegoStatus) (e : string) :
  client p = Some c ->
  on_session_start p = Some hs ->
  previous_state p = OFF ->
  get_status w1 = Returns a1 -> classify (a_recording a1) = ON ->
  hs (snapshot a1 (now w1)) = Raises e ->
  get_status w2 = Returns a2 -> classify (a_recording a2) = ON ->
  let r1 := poll p w1 in
  let r2 := poll (fst (fst r1)) w2 in
  connected (snd (fst r1)) = false
  /\ error (snd (fst r1)) = Some e
  /\ previous_state (fst (fst r1)) = OFF
  /\ is_connected (fst (fst r1)) = false
  /\ consecutive_errors (fst (fst r1)) = 1
  /\ callbacks (snd r1) = [Call_on_session_start (snapshot a1 (now w1))]
  /\ callbacks (snd r2) = [Call_on_session_start (snapshot a2 (now w2))].
Proof.
  intros Hc Hs Hp G1 K1 R1 G2 K2 r1 r2.
  assert (E1 : r1 = poll_except (set_link p true 0) e (now w1)
                      [Log_started (base_name (snapshot a1 (now w1)));
                       Call_on_session_start (snapshot a1 (now w1))]).
  { unfold r1, poll. rewrite Hc, G1. cbn [set_link previous_state on_session_start].
    rewrite Hp, K1, Hs. cbn [state_eqb andb invoke]. rewrite R1. reflexivity. }
  unfold r2. rewrite E1. unfold poll_except.
  cbn [fst snd set_link consecutive_errors connected error previous_state is_connected].
  rewrite Hp. repeat split.
  unfold poll. cbn [client set_link]. rewrite Hc, G2.
  cbn [set_link previous_state on_session_start]. rewrite Hp, K2, Hs.
  cbn [state_eqb andb invoke].
  destruct (hs (snapshot a2 (now w2))); unfold poll_except; cbn [snd];
    rewrite ?RadiensPollerFacts.callbacks_app; try destruct (_ || _); reflexivity.
Qed.

Lemma raising_start_handler_is_called_again_witness :
  let hs : Handler := fun _ => Raises "manager down" in
  let p := set_previous_state (started hs quiet) OFF in
  let r1 := poll p (answers "R_ON" 5) in
  let r2 := poll (fst (fst r1)) (answers "R_ON" 6) in
  error (snd (fst r1)) = Some "manager down"
  /\ callbacks (snd r2)
     = [Call_on_session_start (mkRadiensStatus ON "" "" "" true None 6)].
Proof.
  intros hs p r1 r2.
  destruct (raising_start_handler_is_called_again p allego_client hs
              (answers "R_ON" 5) (answers "R_ON" 6) _ _ "manager down"
              eq_refl eq_refl eq_refl eq_refl eq_refl eq_refl eq_refl eq_refl)
    as (_ & H2 & _ & _ & _ & _ & H7).
  split; [exact H2 | exact H7].
Defined.

(** X3: [connect] returns True exactly when its test poll is answered, and
    the connected flag is what it returns.  It never touches the stored
    previous state or the handlers.  A failure of the import or of the
    constructor leaves the client as it was, so that a poller without a
    client keeps answering polls without querying and without counting an
    error; a failure of the test poll leaves a client in place, so that the
    next poll does query and counts its failure. *)
Theorem connect_outcomes (p : Poller) (w : ConnectInput) :
  let r := connect p w in
  let p1 := fst (fst r) in
  (snd (fst r) = true <-> exists a, w = Test_poll_answers a)
  /\ is_connected p1 = snd (fst r)
  /\ previous_state p1 = previous_state p
  /\ on_session_start p1 = on_session_start p
  /\ on_session_end p1 = on_session_end p
  /\ (snd (fst r) = true ->
      client p1 = Some allego_client /\ consecutive_errors p1 = 0)
  /\ (snd (fst r) = false -> consecutive_errors p1 = consecutive_errors p)
  /\ (forall pw e,
        get_status pw = Raises e ->
        match w with
        | Import_fails | Constructor_raises _ =>
            client p = None ->
            consecutive_errors (fst (fst (poll p1 pw))) = consecutive_errors p
            /\ error (snd (fst (poll p1 pw)))
               = Some "Not connected (call connect() first)"
        | Test_poll_raises _ =>
            consecutive_errors (fst (fst (poll p1 pw))) = consecutive_errors p + 1
            /\ error (snd (fst (poll p1 pw))) = Some e
        | Test_poll_answers _ =>
            consecutive_errors (fst (fst (poll p1 pw))) = 1
            /\ error (snd (fst (poll p1 pw))) = Some e
        end).
Proof.
  cbv zeta.
  destruct w as [|m|m|a];
    cbn [connect fst snd set_link set_client is_connected previous_state
         on_session_start on_session_end client consecutive_errors];
    repeat match goal with |- _ /\ _ => split end;
    try reflexivity;
    try (intros H; discriminate H);
    try (intros _; split; reflexivity);
    try (split; [intros H; discriminate H | intros [a' Ha]; discriminate Ha]);
    try (split; [intros _; eexists; reflexivity | reflexivity]).
  - intros pw e Hg Hn. unfold poll. cbn [client set_link]. rewrite Hn.
    split; reflexivity.
  - intros pw e Hg Hn. unfold poll. cbn [client set_link]. rewrite Hn.
    split; reflexivity.
  - intros pw e Hg. unfold poll. cbn [client set_link set_client]. rewrite Hg.
    split; reflexivity.
  - intros pw e Hg. unfold poll. cbn [client set_link set_client]. rewrite Hg.
    split; reflexivity.
Qed.

Ltac settle_well_formed :=
  repeat split; auto; try discriminate; try lia;
  try (intros;
       match goal with
       | I : is_connected ?p = true -> _, H : is_connected ?p = true |- _ =>
           destruct (I H); assumption
       end).

Lemma connect_well_formed hs he p w :
  well_formed hs he p -> well_formed hs he (fst (fst (connect p w))).
Proof.
  unfold well_formed. intros (I1 & I2 & I3 & I4 & I5 & I6).
  destruct w as [|m|m|a]; cbn; settle_well_formed.
Qed.

Lemma poll_well_formed hs he p w :
  well_formed hs he p -> well_formed hs he (fst (fst (poll p w))).
Proof.
  unfold well_formed. intros (I1 & I2 & I3 & I4 & I5 & I6).
  unfold poll. destruct (client p) as [c|] eqn:Hc.
  2:{ cbn [fst]. rewrite Hc. settle_well_formed. }
  destruct (get_status w) as [a|e].
  2:{ unfold poll_except. cbn. rewrite Hc. settle_well_formed. }
  cbv zeta.
  destruct (if _ : bool then _ else _) as [evs [e|]];
    unfold poll_except; cbn; rewrite ?Hc; settle_well_formed.
Qed.

(** X4: whatever sequence of [connect] and [poll] calls a poller has been
    through since its construction, a raised connected flag means that a
    client exists and that the count of consecutive errors is zero; the
    count is never negative, the handlers are those given at construction,
    and as long as no client exists the stored state is still UNKNOWN. *)
Theorem poller_stays_well_formed (interval : Z) (hs he : option Handler)
    (cs : list PollerCall) :
  well_formed hs he (apply_poller_calls (init interval hs he) cs).
Proof.
  induction cs as [|c cs IH] using rev_ind.
  - unfold well_formed. cbn. repeat split; auto; try discriminate; lia.
  - unfold apply_poller_calls in *. rewrite fold_left_app. cbn [fold_left].
    destruct c as [w|w]; cbn [apply_poller_call].
    + apply connect_well_formed, IH.
    + apply poll_well_formed, IH.
Qed.

End RadiensPollerMore.

(** ** More facts about the session manager *)
Module SessionManagerMore.
Import SessionManager.

(** X5: two partial updates in a row amount to one update that takes, field
    by field, the later value where one was given and the earlier one
    otherwise; an update that names nothing changes nothing.  [set_metadata]
    returns the pending metadata it leaves behind and touches neither the
    active session nor the history. *)
Theorem set_metadata_merges (m : Manager)
    (a1 b1 u1 : option string) (k1 : option Z)
    (a2 b2 u2 : option string) (k2 : option Z) :
  let r1 := set_metadata m a1 b1 u1 k1 in
  let r2 := set_metadata (fst (fst r1)) a2 b2 u2 k2 in
  pending_metadata (fst (fst r2))
  = pending_metadata
      (fst (fst (set_metadata m (later a1 a2) (later b1 b2) (later u1 u2)
                              (later k1 k2))))
  /\ snd (fst r2) = pending_metadata (fst (fst r2))
  /\ active_session (fst (fst r2)) = active_session m
  /\ history (fst (fst r2)) = history m
  /\ mouse_id (pending_metadata (fst (fst r1)))
     = match a1 with Some v => v | None => mouse_id (pending_metadata m) end
  /\ recording_type (pending_metadata (fst (fst r1)))
     = match b1 with Some v => v | None => recording_type (pending_metadata m) end
  /\ user_name (pending_metadata (fst (fst r1)))
     = match u1 with Some v => v | None => user_name (pending_metadata m) end
  /\ chamber (pending_metadata (fst (fst r1)))
     = match k1 with Some v => v | None => chamber (pending_metadata m) end.
Proof.
  destruct m as [sd ed z cs [mo rt us ch] act hist].
  destruct a1, b1, u1, k1, a2, b2, u2, k2; cbn; repeat split.
Qed.

Lemma dict_get_cameras_get d key dflt :
  dict_get d key dflt
  = match FrigateController.cameras_get d key with
    | Some v => v
    | None => dflt
    end.
Proof.
  induction d as [|[k v] rest IH]; simpl; [reflexivity|].
  destruct (String.eqb k key); [reflexivity | exact IH].
Qed.

(** X6: the camera of a new session is the one the controller's
    [get_camera_id] finds for the pending chamber when both hold the same
    camera map, and the synthesized [pi_cam_<chamber>] in exactly the cases
    where [get_camera_id] raises.  With the default camera map it is
    [pi_cam_<chamber>] for every chamber. *)
Theorem session_camera_follows_chamber (m : Manager)
    (c : FrigateController.Controller) (w : StartInput) (b p : string) :
  FrigateController.cameras c = cameras m ->
  exists s,
    snd (fst (start_session m w b p)) = Returns s
    /\ session_chamber s = chamber (pending_metadata m)
    /\ match FrigateController.get_camera_id c (chamber (pending_metadata m)) with
       | Returns cam => camera s = cam
       | Raises _ =>
           camera s = fstr ["pi_cam_"; str_int (chamber (pending_metadata m))]
       end
    /\ (cameras m = default_cameras ->
        camera s = fstr ["pi_cam_"; str_int (chamber (pending_metadata m))]).
Proof.
  intros Hc. eexists. split; [reflexivity|]. split; [reflexivity|].
  cbn [camera]. split.
  - unfold FrigateController.get_camera_id. rewrite Hc, dict_get_cameras_get.
    unfold fstr, FrigateController.fstr.
    destruct (FrigateController.cameras_get _ _); reflexivity.
  - intros ->. unfold default_cameras, fstr.
    generalize (str_int (chamber (pending_metadata m))). intros x.
    destruct (string_dec x "0") as [->|N0]; [reflexivity|].
    destruct (string_dec x "1") as [->|N1]; [reflexivity|].
    cbn [dict_get String.concat append].
    rewrite (proj2 (String.eqb_neq _ _))
      by (intros H; injection H as H; apply N0; symmetry; exact H).
    rewrite (proj2 (String.eqb_neq _ _))
      by (intros H; injection H as H; apply N1; symmetry; exact H).
    reflexivity.
Qed.

Lemma session_camera_follows_chamber_witness :
  let c := FrigateController.init "127.0.0.1" 1883 "http://127.0.0.1:5000" None in
  let m := fst (fst (set_metadata fresh None None None (Some 7))) in
  FrigateController.cameras c = cameras m
  /\ FrigateController.get_camera_id c 7
     = Raises "No camera configured for chamber 7 (key: chamber_7)"
  /\ exists s,
       snd (fst (start_session m (mkStartInput 1000 "id-1") "" "")) = Returns s
       /\ camera s = "pi_cam_7".
Proof.
  intros c m. split; [reflexivity|]. split; [reflexivity|].
  destruct (session_camera_follows_chamber m c (mkStartInput 1000 "id-1") "" ""
              eq_refl) as (s & Hs & _ & _ & Hd).
  exists s. split; [exact Hs|]. rewrite (Hd eq_refl). reflexivity.
Defined.

Lemma round_tenth_near (ms : Z) :
  round_tenth ms mod 100 = 0 /\ -50 <= round_tenth ms - ms <= 50.
Proof.
  unfold round_tenth.
  pose proof (Z.div_mod ms 100 ltac:(lia)) as E.
  pose proof (Z.mod_pos_bound ms 100 ltac:(lia)) as B.
  split.
  - rewrite Z.mul_comm. apply Z.mod_mul. lia.
  - destruct (ms mod 100 <? 50) eqn:L; [apply Z.ltb_lt in L; lia|].
    apply Z.ltb_ge in L.
    destruct (50 <? ms mod 100) eqn:G; [apply Z.ltb_lt in G; lia|].
    apply Z.ltb_ge in G.
    destruct (Z.even (ms / 100)); lia.
Qed.

(** X7: closing an active session.  [end_session] returns the record it
    closed, appends exactly that record to the history, empties the active
    slot and resets the pending metadata.  The closed record keeps its
    identity, start, metadata, camera, Radiens names and statuses; it is
    stamped with the clock reading as end time, with a duration that is a
    whole number of tenths of a second and lies within half a tenth of the
    difference between end and start, and with the generated filename.
    Whether the sidecar file could be written changes neither the manager
    nor the record returned. *)
Theorem end_session_closes_active (m : Manager) (w : EndInput)
    (s0 : SessionRecord) :
  active_session m = Some s0 ->
  exists s,
    snd (fst (end_session m w)) = Some s
    /\ history (fst (fst (end_session m w))) = history m ++ [s]
    /\ active_session (fst (fst (end_session m w))) = None
    /\ pending_metadata (fst (fst (end_session m w))) = default_metadata
    /\ cameras (fst (fst (end_session m w))) = cameras m
    /\ (session_id s = session_id s0
        /\ start_time_utc s = start_time_utc s0
        /\ start_time_local s = start_time_local s0
        /\ session_metadata s = session_metadata s0
        /\ camera s = camera s0
        /\ radiens_xdat_filename s = radiens_xdat_filename s0
        /\ radiens_xdat_path s = radiens_xdat_path s0
        /\ export_status s = export_status s0
        /\ nas_transfer_status s = nas_transfer_status s0)
    /\ end_time_utc s = end_now w
    /\ end_time_local s = isoformat (tz m (end_now w))
    /\ duration_seconds s mod 100 = 0
    /\ -50 <= duration_seconds s - (end_now w - start_time_utc s0) <= 50
    /\ video_filename s = _generate_filename m s0
    /\ (forall wr, fst (end_session m (mkEndInput (end_now w) wr))
                   = fst (end_session m w)).
Proof.
  intros H. unfold end_session. rewrite H. eexists.
  split; [reflexivity|].
  destruct (round_tenth_near (end_now w - start_time_utc s0)) as [N1 [N2 N3]].
  repeat split; assumption.
Qed.

Lemma end_session_closes_active_witness :
  exists s,
    snd (fst (end_session busy (mkEndInput 61055 (Raises "disk full")))) = Some s
    /\ history (fst (fst (end_session busy (mkEndInput 61055 (Raises "disk full")))))
       = history busy ++ [s]
    /\ duration_seconds s mod 100 = 0
    /\ -50 <= duration_seconds s - (61055 - 1000) <= 50
    /\ video_filename s = "2603010000_unknown_unknown.mp4".
Proof.
  destruct (end_session_closes_active busy (mkEndInput 61055 (Raises "disk full"))
              _ eq_refl)
    as (s & H1 & H2 & _ & _ & _ & _ & _ & _ & H3 & H4 & H5 & _).
  exists s. split; [exact H1|]. split; [exact H2|].
  split; [exact H3|]. split; [exact H4|]. rewrite H5. reflexivity.
Defined.


Lemma prefix_of_refl {A : Type} (l : list A) : prefix_of l l.
Proof. exists []. symmetry. apply app_nil_r. Qed.

Lemma prefix_of_trans {A : Type} (l1 l2 l3 : list A) :
  prefix_of l1 l2 -> prefix_of l2 l3 -> prefix_of l1 l3.
Proof.
  intros [r1 ->] [r2 ->]. exists (r1 ++ r2). symmetry. apply app_assoc.
Qed.

Lemma settled_app h1 h2 : settled (h1 ++ h2) = settled h1 ++ settled h2.
Proof. apply map_app. Qed.

Lemma history_after_call m c :
  prefix_of (settled (history m)) (settled (history (apply_manager_call m c))).
Proof.
  destruct c as [a b u k| |w b p|w|w r|st wr]; cbn [apply_manager_call];
    try apply prefix_of_refl.
  - unfold end_session. destruct (active_session m); cbn.
    + rewrite settled_app. eexists. reflexivity.
    + apply prefix_of_refl.
  - unfold abort_session. destruct (active_session m); cbn.
    + rewrite settled_app. eexists. reflexivity.
    + apply prefix_of_refl.
  - unfold update_export_status.
    destruct (rev (history m)) as [|s before] eqn:E; cbn.
    + apply prefix_of_refl.
    + assert (Hh : history m = rev before ++ [s]).
      { rewrite <- (rev_involutive (history m)), E. reflexivity. }
      rewrite Hh, !settled_app. cbn. apply prefix_of_refl.
Qed.

(** X9: the history is append-only.  Through any sequence of calls on a
    manager, the records already in the history stay where they are and
    keep every field but the export status; calls only ever add records
    after them. *)
Theorem history_is_append_only (m : Manager) (cs : list ManagerCall) :
  prefix_of (settled (history m))
            (settled (history (apply_manager_calls m cs)))
  /\ (length (history m) <= length (history (apply_manager_calls m cs)))%nat.
Proof.
  assert (P : prefix_of (settled (history m))
                (settled (history (apply_manager_calls m cs)))).
  { induction cs as [|c cs IH] using rev_ind.
    - apply prefix_of_refl.
    - unfold apply_manager_calls in *. rewrite fold_left_app. cbn [fold_left].
      eapply prefix_of_trans; [exact IH | apply history_after_call]. }
  split; [exact P|].
  destruct P as [rest Hr].
  apply (f_equal (@length _)) in Hr. unfold settled in Hr.
  rewrite length_app, !length_map in Hr. lia.
Qed.

(** X10: [update_export_status] does nothing on an empty history;
    otherwise it replaces the export status of the last record and of no
    other, leaves the active slot and the pending metadata alone, and
    writes that record to the sidecar path the record already had. *)
Theorem update_export_status_rewrites_last (m : Manager) (status : string)
    (wr : outcome unit) :
  match rev (history m) with
  | [] => update_export_status m status wr = (m, [])
  | s :: before =>
      let s1 := with_export_status s status in
      history (fst (update_export_status m status wr)) = rev before ++ [s1]
      /\ history m = rev before ++ [s]
      /\ active_session (fst (update_export_status m status wr))
         = active_session m
      /\ pending_metadata (fst (update_export_status m status wr))
         = pending_metadata m
      /\ sidecar_path m s1 = sidecar_path m s
      /\ snd (update_export_status m status wr)
         = match wr with
           | Returns _ => [Json_written (sidecar_path m s) s1]
           | Raises e => [Log_json_failed (sidecar_path m s) e]
           end
  end.
Proof.
  unfold update_export_status.
  destruct (rev (history m)) as [|s before] eqn:E; [reflexivity|].
  cbn. repeat split; try (destruct wr; reflexivity).
  rewrite <- (rev_involutive (history m)), E. reflexivity.
Qed.

Lemma rsplit_head_mp4 (x : string) :
  rsplit_head "." (x ++ ".mp4")%string = Some x.
Proof.
  induction x as [|c x IH]; [reflexivity|].
  cbn [append rsplit_head]. rewrite IH. reflexivity.
Qed.

Lemma string_app_assoc (a b c : string) :
  ((a ++ b) ++ c)%string = (a ++ (b ++ c))%string.
Proof. induction a as [|x a IH]; cbn; [reflexivity | rewrite IH; reflexivity]. Qed.

Ltac reassociate :=
  unfold fstr; cbn [String.concat append];
  repeat (rewrite string_app_assoc; cbn [append]).

Lemma generated_filename_not_empty m s :
  String.eqb (_generate_filename m s) "" = false.
Proof. reflexivity. Qed.

Lemma generated_filename_stem m s :
  rsplit1 "." (_generate_filename m s)
  = fstr [strftime_ymdHM (tz m (start_time_utc s)); "_";
          replace " " "_" (session_mouse_id s); "_";
          replace " " "_" (session_recording_type s)].
Proof.
  unfold _generate_filename, rsplit1.
  generalize (strftime_ymdHM (tz m (start_time_utc s))),
             (replace " " "_" (session_mouse_id s)),
             (replace " " "_" (session_recording_type s)).
  intros ts a b.
  replace (fstr [ts; "_"; a; "_"; b; ".mp4"])
    with (fstr [ts; "_"; a; "_"; b] ++ ".mp4")%string
    by (reassociate; reflexivity).
  rewrite rsplit_head_mp4. reflexivity.
Qed.

(** X11: the sidecar file of a closed session is named after its video
    file: the generated filename with [.mp4] taken off, whatever dots the
    mouse id or the recording type contain, followed by [_session.json],
    joined to the sessions directory.  [end_session] writes the closed record
    there, or logs the failure of that write, between its own log line and
    the clearing of the metadata. *)
Theorem sidecar_named_after_video (m : Manager) (w : EndInput)
    (s0 : SessionRecord) :
  active_session m = Some s0 ->
  exists s,
    snd (fst (end_session m w)) = Some s
    /\ sidecar_path m s
       = mkPath (sessions_dir m)
                (fstr [strftime_ymdHM (tz m (start_time_utc s0)); "_";
                       replace " " "_" (session_mouse_id s0); "_";
                       replace " " "_" (session_recording_type s0);
                       "_session.json"])
    /\ snd (end_session m w)
       = [Log_session_ended (duration_seconds s) (video_filename s);
          match write w with
          | Returns _ => Json_written (sidecar_path m s) s
          | Raises e => Log_json_failed (sidecar_path m s) e
          end;
          Log_metadata_cleared].
Proof.
  intros H. unfold end_session. rewrite H.
  exists (close m s0 (end_now w) (export_status s0)).
  split; [reflexivity|]. split.
  - unfold sidecar_path.
    change (video_filename (close m s0 (end_now w) (export_status s0)))
      with (_generate_filename m s0).
    rewrite generated_filename_not_empty, generated_filename_stem.
    generalize (strftime_ymdHM (tz m (start_time_utc s0))),
               (replace " " "_" (session_mouse_id s0)),
               (replace " " "_" (session_recording_type s0)).
    intros ts a b. f_equal. reassociate. reflexivity.
  - unfold _write_session_json, sidecar_path, clear_metadata.
    cbn [fst snd app]. destruct (write w); reflexivity.
Qed.

Lemma sidecar_named_after_video_witness :
  let m := fst (fst (start_session
                       (fst (fst (set_metadata fresh (Some "M 1.5") (Some "sd v.2")
                                               None None)))
                       (mkStartInput 7500000 "id-3") "" "")) in
  exists s0 s,
    active_session m = Some s0
    /\ snd (fst (end_session m (mkEndInput 7600000 (Returns tt)))) = Some s
    /\ sidecar_path m s
       = mkPath "/opt/neurosurveillance/sessions"
                "2603010205_M_1.5_sd_v.2_session.json".
Proof.
  intros m. eexists.
  destruct (sidecar_named_after_video m (mkEndInput 7600000 (Returns tt)) _ eq_refl)
    as (s & H1 & H2 & _).
  exists s. split; [reflexivity|]. split; [exact H1|]. rewrite H2. reflexivity.
Defined.

End SessionManagerMore.

(** ** More facts about the recording controller *)
Module FrigateControllerMore.
Import FrigateController.

Lemma publishes_app (l1 l2 : list Event) :
  publishes (l1 ++ l2) = publishes l1 ++ publishes l2.
Proof. apply filter_app. Qed.

(** X12: [set_recording] returns True exactly when the controller is
    connected, has a client, and neither [publish()] nor
    [wait_for_publish()] raises; whether the broker acknowledged plays no
    part.  It hands the broker one message, ON or OFF at QoS 1 on the
    camera's recordings topic, unless it is disconnected or [publish()]
    itself raised, and the time it spends waiting lies between 0 and
    5 seconds. *)
Theorem set_recording_outcomes (c : Controller) (w : PublishInput)
    (camera_id : string) (enabled : bool) :
  let r := set_recording c w camera_id enabled in
  let usable :=
    _mqtt_connected c
    && match _mqtt_client c with Some _ => true | None => false end in
  fst (fst r) = usable && delivers w
  /\ publishes (snd r)
     = (if usable
           && match w with Publish_raises _ => false | _ => true end
        then [Publish (recording_topic camera_id)
                      (if enabled then "ON" else "OFF") 1]
        else [])
  /\ 0 <= snd (fst r) <= 5000.
Proof.
  unfold set_recording.
  destruct (_mqtt_connected c), (_mqtt_client c) as [cl|]; cbn;
    try (repeat split; try reflexivity; lia).
  destruct w as [e|e|d|]; cbn; try (repeat split; try reflexivity; lia).
  destruct (d <=? 5000) eqn:E; cbn; repeat split; try reflexivity; lia.
Qed.

Lemma stop_all_loop_publishes c world items : forall k success,
  (_mqtt_connected c
   && match _mqtt_client c with Some _ => true | None => false end = false ->
   publishes (snd (stop_all_loop c world k items success)) = []
   /\ fst (stop_all_loop c world k items success)
      = match items with [] => success | _ => false end)
  /\ (_mqtt_connected c
      && match _mqtt_client c with Some _ => true | None => false end = true ->
      (forall j, delivers (world j) = true) ->
      publishes (snd (stop_all_loop c world k items success))
      = map (fun kv => Publish (recording_topic (snd kv)) "OFF" 1) items
      /\ fst (stop_all_loop c world k items success) = success).
Proof.
  induction items as [|[key cam] rest IH]; intros k success.
  - split; intros; split; reflexivity.
  - cbn [stop_all_loop map snd].
    destruct (set_recording_outcomes c (world k) cam false) as (R1 & R2 & _).
    destruct (set_recording c (world k) cam false) as [[ok spent] evs].
    cbn [fst snd] in R1, R2. split.
    + intros Hu. rewrite Hu in R1, R2. cbn in R1, R2. subst ok. cbn [negb].
      destruct (IH (S k) false) as [I _]. destruct (I Hu) as [I1 I2].
      destruct (stop_all_loop c world (S k) rest false) as [r evs'].
      cbn [fst snd] in *. rewrite !publishes_app, R2, I1. cbn.
      split; [reflexivity|]. rewrite I2. destruct rest; reflexivity.
    + intros Hu Hd. rewrite Hu, (Hd k) in R1. cbn in R1. subst ok. cbn [negb].
      rewrite Hu in R2. cbn [andb] in R2.
      assert (R2' : publishes evs = [Publish (recording_topic cam) "OFF" 1]).
      { rewrite R2. specialize (Hd k). destruct (world k); try discriminate; reflexivity. }
      destruct (IH (S k) success) as [_ I]. destruct (I Hu Hd) as [I1 I2].
      destruct (stop_all_loop c world (S k) rest success) as [r evs'].
      cbn [fst snd] in *. rewrite !publishes_app, R2', I1. cbn.
      split; [reflexivity | exact I2].
Qed.

(** X13: on a controller that is disconnected or has no client,
    [stop_all_recording] hands the broker nothing and returns False as soon
    as there is a camera; on a connected one whose transport does not
    raise, it publishes OFF at QoS 1 to every configured camera's topic, in
    the order of the camera map, and returns True. *)
Theorem stop_all_recording_publishes (c : Controller)
    (world : nat -> PublishInput) :
  let usable :=
    _mqtt_connected c
    && match _mqtt_client c with Some _ => true | None => false end in
  (usable = false ->
   publishes (snd (stop_all_recording c world)) = []
   /\ fst (stop_all_recording c world)
      = match cameras c with [] => true | _ => false end)
  /\ (usable = true ->
      (forall j, delivers (world j) = true) ->
      publishes (snd (stop_all_recording c world))
      = map (fun kv => Publish (recording_topic (snd kv)) "OFF" 1) (cameras c)
      /\ fst (stop_all_recording c world) = true).
Proof. apply stop_all_loop_publishes. Qed.

Lemma stop_all_recording_publishes_witness :
  let world := fun _ : nat => Ack_after 12 in
  (_mqtt_connected linked
   && match _mqtt_client linked with Some _ => true | None => false end = true
   /\ forall j, delivers (world j) = true)
  /\ publishes (snd (stop_all_recording linked world))
     = [Publish "frigate/pi_cam_0/recordings/set" "OFF" 1;
        Publish "frigate/pi_cam_1/recordings/set" "OFF" 1]
  /\ fst (stop_all_recording linked world) = true.
Proof.
  intros world.
  assert (D : forall j, delivers (world j) = true) by reflexivity.
  split; [split; [reflexivity | exact D]|].
  exact (proj2 (stop_all_recording_publishes linked world) eq_refl D).
Defined.

(** X14: once [disconnect_mqtt] has run, whether or not stopping the
    network loop raised, [set_recording] refuses: it returns False and
    hands the broker nothing.  The same holds after the broker's disconnect
    callback, and a connect callback with a non-zero reason code leaves the
    controller as it was. *)
Theorem disconnected_controller_refuses (c : Controller)
    (stopping : outcome unit) (code : Z) (w : PublishInput)
    (camera_id : string) (enabled : bool) :
  set_recording (fst (disconnect_mqtt c stopping)) w camera_id enabled
  = (false, 0, [Call_set_recording camera_id enabled; Log_not_connected])
  /\ set_recording (_on_disconnect c code) w camera_id enabled
     = (false, 0, [Call_set_recording camera_id enabled; Log_not_connected])
  /\ cameras (fst (disconnect_mqtt c stopping)) = cameras c
  /\ (code <> 0 -> _on_connect c code = c)
  /\ _mqtt_connected (_on_connect c 0) = true.
Proof.
  repeat split.
  - unfold disconnect_mqtt. destruct (_mqtt_client c) as [cl|] eqn:E.
    + reflexivity.
    + cbn [fst]. apply FrigateControllerFacts.set_recording_not_connected.
      right. exact E.
  - unfold disconnect_mqtt. destruct (_mqtt_client c); reflexivity.
  - intros H. unfold _on_connect. apply Z.eqb_neq in H. rewrite H. reflexivity.
Qed.

Lemma ends_with_slash_cons a s :
  s <> EmptyString -> ends_with_slash (String a s) = ends_with_slash s.
Proof.
  unfold ends_with_slash. cbn [list_ascii_of_string rev].
  intros H. destruct s as [|b s']; [congruence|].
  cbn [list_ascii_of_string rev].
  destruct (rev (list_ascii_of_string s') ++ [b]) eqn:E.
  - destruct (rev (list_ascii_of_string s')); discriminate.
  - reflexivity.
Qed.

Lemma rstrip_spec (s : string) :
  ends_with_slash (rstrip "/" s) = false
  /\ exists n, s = (rstrip "/" s ++ slashes n)%string.
Proof.
  induction s as [|a s [I1 [n I2]]].
  - split; [reflexivity | exists 0%nat; reflexivity].
  - cbn [rstrip]. destruct (rstrip "/" s) as [|b r] eqn:E.
    + destruct (Ascii.eqb a "/") eqn:A.
      * split; [reflexivity|]. apply Ascii.eqb_eq in A. subst a.
        exists (S n). cbn. rewrite I2 at 1. reflexivity.
      * split; [unfold ends_with_slash; cbn; exact A|].
        exists n. cbn. rewrite I2 at 1. reflexivity.
    + split.
      * rewrite ends_with_slash_cons by discriminate. exact I1.
      * exists n. cbn [append]. rewrite I2 at 1. reflexivity.
Qed.

(** X15: the controller is constructed disconnected, with at least one
    camera, and with the Frigate URL stripped of its trailing slashes and
    of nothing else, so that the export-list URL it builds never has a
    double slash before [api]. *)
Theorem init_normalises_url (host : string) (port : Z) (url : string)
    (cams : option (list (string * string))) :
  let c := init host port url cams in
  ends_with_slash (frigate_url c) = false
  /\ (exists n, url = (frigate_url c ++ slashes n)%string)
  /\ cameras c <> []
  /\ _mqtt_connected c = false
  /\ _mqtt_client c = None.
Proof.
  cbn [init frigate_url cameras _mqtt_connected _mqtt_client].
  destruct (rstrip_spec url) as [H1 H2].
  repeat split; try assumption.
  destruct cams as [[|x xs]|]; discriminate.
Qed.

End FrigateControllerMore.

(** ** Facts about the API *)
Module ApiFacts.
Import Api.

(** X16: the history endpoint answers with the newest sessions first, as
    many as the limit allows: the limit defaults to 50 and is clamped to
    between 1 and 500, the answer is the first [limit] records of the
    reversed history, and its count is the smaller of the limit and the
    number of sessions.  Without a session manager it answers 503. *)
Theorem history_endpoint_newest_first (m : SessionManager.Manager)
    (limit_arg : option Z) :
  let limit :=
    Z.max 1 (Z.min (match limit_arg with Some n => n | None => 50 end) 500) in
  1 <= limit <= 500
  /\ get_session_history None limit_arg
     = inr ("Session manager not initialized", 503)
  /\ exists r,
       get_session_history (Some m) limit_arg = inl r
       /\ sessions r = firstn (Z.to_nat limit) (rev (SessionManager.history m))
       /\ total r = Z.of_nat (length (SessionManager.history m))
       /\ count r = Z.min limit (total r)
       /\ count r = Z.of_nat (length (sessions r)).
Proof.
  intros limit. split; [unfold limit; lia|]. split; [reflexivity|].
  eexists. split; [reflexivity|].
  cbn [sessions total count]. fold limit.
  assert (E : rev (slice_from (- limit) (SessionManager.history m))
              = firstn (Z.to_nat limit) (rev (SessionManager.history m))).
  { unfold slice_from.
    assert (L : 1 <= limit) by (unfold limit; lia).
    replace (- limit <? 0) with true by (symmetry; apply Z.ltb_lt; lia).
    rewrite firstn_rev. f_equal. f_equal. lia. }
  rewrite E. repeat split.
  rewrite length_firstn, length_rev. unfold limit. lia.
Qed.

End ApiFacts.

(** ** Facts about the daemon *)
Module DaemonFacts.
Import Daemon.

Module RP := RadiensPoller.
Module SM := SessionManager.
Module FC := FrigateController.

Lemma frigate_events_app l1 l2 :
  frigate_events (l1 ++ l2) = frigate_events l1 ++ frigate_events l2.
Proof. apply flat_map_app. Qed.

Lemma frigate_events_poller l : frigate_events (map Poller_event l) = [].
Proof. induction l; [reflexivity | exact IHl]. Qed.

Lemma frigate_events_manager l : frigate_events (map Manager_event l) = [].
Proof. induction l; [reflexivity | exact IHl]. Qed.

Lemma frigate_events_frigate l : frigate_events (map Frigate_event l) = l.
Proof. induction l as [|e l IH]; [reflexivity | cbn; f_equal; exact IH]. Qed.

Lemma export_threads_app l1 l2 :
  export_threads (l1 ++ l2) = export_threads l1 ++ export_threads l2.
Proof. apply flat_map_app. Qed.

Lemma export_threads_poller l : export_threads (map Poller_event l) = [].
Proof. induction l; [reflexivity | exact IHl]. Qed.

Lemma export_threads_manager l : export_threads (map Manager_event l) = [].
Proof. induction l; [reflexivity | exact IHl]. Qed.

Lemma export_threads_frigate l : export_threads (map Frigate_event l) = [].
Proof. induction l; [reflexivity | exact IHl]. Qed.

Ltac tidy_events :=
  unfold recording_calls;
  repeat (cbn [frigate_events export_threads flat_map app];
          rewrite ?frigate_events_app, ?export_threads_app,
                  ?frigate_events_poller, ?frigate_events_manager,
                  ?frigate_events_frigate, ?export_threads_poller,
                  ?export_threads_manager, ?export_threads_frigate,
                  ?app_nil_r);
  cbn [frigate_events export_threads flat_map app].

Lemma connect_keeps p w :
  RP.previous_state (fst (fst (RP.connect p w))) = RP.previous_state p
  /\ RP.on_session_start (fst (fst (RP.connect p w))) = RP.on_session_start p
  /\ RP.on_session_end (fst (fst (RP.connect p w))) = RP.on_session_end p
  /\ (RP.client p <> None -> RP.client (fst (fst (RP.connect p w))) <> None).
Proof. destruct w; cbn; repeat split; auto; discriminate. Qed.

(** What [_handle_session_start] leaves behind. *)
Lemma handle_start_spec d w st :
  let sr := SM.start_session (session_manager d) (tick_start w)
              (RP.base_name st) (RP.file_path st) in
  let r := _handle_session_start d w st in
  session_manager (fst r) = fst (fst sr)
  /\ frigate (fst r) = frigate d
  /\ poller (fst r) = poller d
  /\ _running (fst r) = _running d
  /\ _shutdown_event (fst r) = _shutdown_event d
  /\ (forall s, snd (fst sr) = Returns s ->
        FC.calls (frigate_events (snd r)) = [FC.Call_set_recording (SM.camera s) true])
  /\ export_threads (snd r) = [].
Proof.
  cbv zeta. unfold _handle_session_start.
  destruct (SM.start_session _ _ _ _) as [[m1 [s|e]] evm]; cbn [fst snd].
  - pose proof (FrigateControllerFacts.calls_set_recording
                  (frigate (with_manager d m1)) (tick_publish w) (SM.camera s) true) as Hc.
    destruct (FC.set_recording _ _ _ _) as [[ok sp] evf]. cbn [fst snd] in *.
    repeat split.
    + intros s' Hs. injection Hs as <-. tidy_events.
      destruct ok; cbn [negb]; tidy_events; exact Hc.
    + destruct ok; cbn [negb]; tidy_events; reflexivity.
  - repeat split.
    + intros s' Hs. discriminate Hs.
    + tidy_events. reflexivity.
Qed.

(** What [_handle_session_end] leaves behind. *)
Lemma handle_end_spec d w st :
  let er := SM.end_session (session_manager d) (tick_end w) in
  let r := _handle_session_end d w st in
  session_manager (fst r) = fst (fst er)
  /\ frigate (fst r) = frigate d
  /\ poller (fst r) = poller d
  /\ _running (fst r) = _running d
  /\ _shutdown_event (fst r) = _shutdown_event d
  /\ FC.calls (frigate_events (snd r))
     = match snd (fst er) with
       | Some s => [FC.Call_set_recording (SM.camera s) false]
       | None => []
       end
  /\ export_threads (snd r)
     = match snd (fst er) with Some s => [s] | None => [] end.
Proof.
  cbv zeta. unfold _handle_session_end.
  destruct (SM.end_session _ _) as [[m1 [s|]] evm]; cbn [fst snd].
  - pose proof (FrigateControllerFacts.calls_set_recording
                  (frigate (with_manager d m1)) (tick_publish w) (SM.camera s) false) as Hc.
    destruct (FC.set_recording _ _ _ _) as [[ok sp] evf]. cbn [fst snd] in *.
    repeat split; tidy_events; [exact Hc | reflexivity].
  - repeat split; tidy_events; reflexivity.
Qed.

(** One pass of the main loop, case by case. *)
Lemma pass_spec d w :
  wired d ->
  RP.client (poller d) <> None ->
  let r := main_loop_pass d w in
  wired (fst r)
  /\ RP.client (poller (fst r)) <> None
  /\ frigate (fst r) = frigate d
  /\ _running (fst r) = _running d
  /\ _shutdown_event (fst r) = _shutdown_event d
  /\ match RP.get_status (tick_poll w) with
     | Raises _ =>
         session_manager (fst r) = session_manager d
         /\ RP.previous_state (poller (fst r)) = RP.previous_state (poller d)
         /\ RP.is_connected (poller (fst r)) = false
         /\ recording_calls (snd r) = []
         /\ export_threads (snd r) = []
     | Returns a =>
         RP.previous_state (poller (fst r)) = RP.classify (RP.a_recording a)
         /\ RP.is_connected (poller (fst r)) = true
         /\ match RP.previous_state (poller d), RP.classify (RP.a_recording a) with
            | RP.OFF, RP.ON =>
                let sr := SM.start_session (session_manager d) (tick_start w)
                            (RP.getattr (RP.a_base_name a) "")
                            (RP.getattr (RP.a_path a) "") in
                session_manager (fst r) = fst (fst sr)
                /\ (forall s, snd (fst sr) = Returns s ->
                      recording_calls (snd r)
                      = [FC.Call_set_recording (SM.camera s) true])
                /\ export_threads (snd r) = []
            | RP.ON, RP.OFF =>
                let er := SM.end_session (session_manager d) (tick_end w) in
                session_manager (fst r) = fst (fst er)
                /\ recording_calls (snd r)
                   = match snd (fst er) with
                     | Some s => [FC.Call_set_recording (SM.camera s) false]
                     | None => []
                     end
                /\ export_threads (snd r)
                   = match snd (fst er) with Some s => [s] | None => [] end
            | _, _ =>
                session_manager (fst r) = session_manager d
                /\ recording_calls (snd r) = []
                /\ export_threads (snd r) = []
            end
     end.
Proof.
  intros [Ws We] Hcl. cbv zeta. unfold main_loop_pass.
  set (pc := if RP.is_connected (poller d) then (poller d, [])
             else let '(p, _, evs) := RP.connect (poller d) (tick_connect w) in
                  (p, evs)).
  assert (K : RP.previous_state (fst pc) = RP.previous_state (poller d)
              /\ RP.on_session_start (fst pc) = Some registered
              /\ RP.on_session_end (fst pc) = Some registered
              /\ RP.client (fst pc) <> None).
  { unfold pc. destruct (RP.is_connected (poller d)).
    - cbn [fst]. auto.
    - destruct (connect_keeps (poller d) (tick_connect w)) as (A & B & C & D).
      destruct (RP.connect (poller d) (tick_connect w)) as [[p b] evs].
      cbn [fst] in *. rewrite A, B, C. auto. }
  destruct pc as [p1 evc]. cbn [fst] in K. destruct K as (Kp & Ks & Ke & Kc).
  rewrite <- Kp. clear Kp.
  destruct p1 as [iv os oe cl ps ic ce ms].
  cbn [RP.previous_state RP.on_session_start RP.on_session_end RP.client] in *.
  subst os oe. destruct cl as [c|]; [clear Kc | congruence].
  unfold RP.poll. cbn [RP.client].
  destruct (RP.get_status (tick_poll w)) as [a|e].
  - cbn [RP.set_link RP.previous_state RP.on_session_start RP.on_session_end
         RP.poll_interval RP.client RP.max_silent_errors].
    destruct ps, (RP.classify (RP.a_recording a)) eqn:Hk;
      cbn [RP.state_eqb andb RP.invoke registered app RP.set_previous_state
           RP.set_link RP.previous_state RP.on_session_start RP.on_session_end
           RP.poll_interval RP.client RP.max_silent_errors RP.is_connected
           RP.consecutive_errors dispatch_all dispatch];
      try (cbn [with_poller fst snd poller frigate session_manager _running
                _shutdown_event RP.client RP.previous_state RP.is_connected];
           unfold wired;
           cbn [poller RP.on_session_start RP.on_session_end RP.client
                RP.previous_state RP.is_connected];
           repeat split; try discriminate; tidy_events; reflexivity).
    + (* ON then OFF *)
      match goal with
      | |- context [_handle_session_end ?d0 w ?st] =>
          destruct (handle_end_spec d0 w st) as (H1 & H2 & H3 & H4 & H5 & H6 & H7);
          destruct (_handle_session_end d0 w st) as [d1 ev1]
      end.
      cbn [fst snd with_poller session_manager frigate poller _running
           _shutdown_event] in *.
      unfold wired. rewrite H3.
      cbn [RP.on_session_start RP.on_session_end RP.client RP.previous_state
           RP.is_connected].
      repeat split; try discriminate; try assumption;
        tidy_events; assumption.
    + (* OFF then ON *)
      match goal with
      | |- context [_handle_session_start ?d0 w ?st] =>
          destruct (handle_start_spec d0 w st) as (H1 & H2 & H3 & H4 & H5 & H6 & H7);
          destruct (_handle_session_start d0 w st) as [d1 ev1]
      end.
      cbn [fst snd with_poller session_manager frigate poller _running
           _shutdown_event RP.snapshot RP.base_name RP.file_path] in *.
      unfold wired. rewrite H3.
      cbn [RP.on_session_start RP.on_session_end RP.client RP.previous_state
           RP.is_connected].
      repeat split; try discriminate; try assumption.
      * intros s Hs. tidy_events. exact (H6 s Hs).
      * tidy_events. exact H7.
  - unfold RP.poll_except.
    destruct ((_ =? 1) || _);
      cbn [dispatch_all dispatch with_poller fst snd poller frigate
           session_manager _running _shutdown_event app RP.set_link];
      unfold wired;
      cbn [poller RP.on_session_start RP.on_session_end RP.client
           RP.previous_state RP.is_connected];
      repeat split; try discriminate; tidy_events; reflexivity.
Qed.

(** X17: a recording from start to end.  With the stored state OFF, a pass
    that reads R_ON opens a session from the pending metadata and the names
    Radiens reports and asks for recording to be enabled on that session's
    camera; the next pass that reads R_OFF closes that same session, asks
    for recording to be disabled on the same camera, appends the closed
    record to the history, resets the pending metadata and starts exactly
    one export thread, for the closed record. *)
Theorem recording_cycle (d : SessionDaemon) (w1 w2 : TickInput)
    (a1 a2 : RP.AllegoStatus) :
  wired d ->
  RP.client (poller d) <> None ->
  RP.previous_state (poller d) = RP.OFF ->
  answered w1 a1 -> RP.classify (RP.a_recording a1) = RP.ON ->
  answered w2 a2 -> RP.classify (RP.a_recording a2) = RP.OFF ->
  let r1 := main_loop_pass d w1 in
  let r2 := main_loop_pass (fst r1) w2 in
  exists s closed,
    snd (fst (SM.start_session (session_manager d) (tick_start w1)
                (RP.getattr (RP.a_base_name a1) "")
                (RP.getattr (RP.a_path a1) ""))) = Returns s
    /\ SM.active_session (session_manager (fst r1)) = Some s
    /\ SM.session_metadata s = SM.pending_metadata (session_manager d)
    /\ recording_calls (snd r1) = [FC.Call_set_recording (SM.camera s) true]
    /\ export_threads (snd r1) = []
    /\ snd (fst (SM.end_session (session_manager (fst r1)) (tick_end w2)))
       = Some closed
    /\ SM.session_id closed = SM.uuid4 (tick_start w1)
    /\ SM.camera closed = SM.camera s
    /\ SM.active_session (session_manager (fst r2)) = None
    /\ SM.history (session_manager (fst r2))
       = SM.history (session_manager d) ++ [closed]
    /\ SM.pending_metadata (session_manager (fst r2)) = SM.default_metadata
    /\ recording_calls (snd r2) = [FC.Call_set_recording (SM.camera s) false]
    /\ export_threads (snd r2) = [closed]
    /\ RP.previous_state (poller (fst r2)) = RP.OFF.
Proof.
  intros W Hc Hp G1 K1 G2 K2 r1 r2.
  destruct (pass_spec d w1 W Hc) as (W1 & C1 & _ & _ & _ & T1).
  fold r1 in W1, C1, T1. unfold answered in G1, G2.
  rewrite G1, Hp, K1 in T1. destruct T1 as (P1 & _ & M1 & R1 & X1).
  destruct (pass_spec (fst r1) w2 W1 C1) as (_ & _ & _ & _ & _ & T2).
  fold r2 in T2. rewrite G2, P1, K2 in T2.
  destruct T2 as (P2 & _ & M2 & R2 & X2).
  cbv zeta in M1, R1, M2, R2, X2.
  rewrite M1 in M2, R2, X2 |- *. rewrite M2.
  eexists. eexists.
  split; [reflexivity|]. split; [reflexivity|].
  split; [destruct (session_manager d) as [? ? ? ? [? ? ? ?] ? ?]; reflexivity|].
  split; [apply R1; reflexivity|]. split; [exact X1|].
  split; [reflexivity|].
  split; [reflexivity|]. split; [reflexivity|]. split; [reflexivity|].
  split; [reflexivity|]. split; [reflexivity|].
  split; [exact R2|]. split; [exact X2 | exact P2].
Qed.

(** X18: an indicator the poller does not recognise, read while a session
    is recording, loses the end of that session.  The unrecognised reading
    and the R_OFF that follows it fire nothing: the session stays in the
    active slot, recording is never switched off and no export starts.  The
    next R_ON opens a new session over it, and the history never receives
    the first one. *)
Theorem unknown_reading_loses_session_end (d : SessionDaemon)
    (w1 w2 w3 : TickInput) (a1 a2 a3 : RP.AllegoStatus) :
  wired d ->
  RP.client (poller d) <> None ->
  RP.previous_state (poller d) = RP.ON ->
  answered w1 a1 -> RP.classify (RP.a_recording a1) = RP.UNKNOWN ->
  answered w2 a2 -> RP.classify (RP.a_recording a2) = RP.OFF ->
  answered w3 a3 -> RP.classify (RP.a_recording a3) = RP.ON ->
  let r1 := main_loop_pass d w1 in
  let r2 := main_loop_pass (fst r1) w2 in
  let r3 := main_loop_pass (fst r2) w3 in
  session_manager (fst r2) = session_manager d
  /\ recording_calls (snd r1 ++ snd r2) = []
  /\ export_threads (snd r1 ++ snd r2 ++ snd r3) = []
  /\ RP.previous_state (poller (fst r2)) = RP.OFF
  /\ SM.history (session_manager (fst r3)) = SM.history (session_manager d)
  /\ exists s,
       SM.active_session (session_manager (fst r3)) = Some s
       /\ SM.session_id s = SM.uuid4 (tick_start w3)
       /\ recording_calls (snd r3) = [FC.Call_set_recording (SM.camera s) true].
Proof.
  intros W Hc Hp G1 K1 G2 K2 G3 K3 r1 r2 r3. unfold answered in *.
  destruct (pass_spec d w1 W Hc) as (W1 & C1 & _ & _ & _ & T1).
  fold r1 in W1, C1, T1. rewrite G1, Hp, K1 in T1.
  destruct T1 as (P1 & _ & M1 & R1 & X1).
  destruct (pass_spec (fst r1) w2 W1 C1) as (W2 & C2 & _ & _ & _ & T2).
  fold r2 in W2, C2, T2. rewrite G2, P1, K2 in T2.
  destruct T2 as (P2 & _ & M2 & R2 & X2).
  destruct (pass_spec (fst r2) w3 W2 C2) as (_ & _ & _ & _ & _ & T3).
  fold r3 in T3. rewrite G3, P2, K3 in T3.
  destruct T3 as (P3 & _ & M3 & R3 & X3). cbv zeta in M3, R3.
  rewrite M2, M1 in M3, R3.
  split; [rewrite M2; exact M1|].
  split.
  { unfold recording_calls in *. rewrite frigate_events_app.
    unfold FC.calls in *. rewrite filter_app, R1, R2. reflexivity. }
  split; [rewrite !export_threads_app, X1, X2, X3; reflexivity|].
  split; [exact P2|].
  rewrite M3. split; [reflexivity|].
  eexists. split; [reflexivity|]. split; [reflexivity|].
  apply R3. reflexivity.
Qed.

Lemma main_loop_cons d w ws :
  _main_loop d (w :: ws)
  = if _running d && negb (_shutdown_event d) then
      (fst (_main_loop (fst (main_loop_pass d w)) ws),
       snd (main_loop_pass d w) ++ snd (_main_loop (fst (main_loop_pass d w)) ws))
    else (d, []).
Proof.
  cbn [_main_loop]. destruct (_running d && negb (_shutdown_event d)); [|reflexivity].
  destruct (main_loop_pass d w) as [d1 ev1]. cbn [fst snd].
  destruct (_main_loop d1 ws); reflexivity.
Qed.

Lemma main_loop_outage ws : forall d,
  wired d ->
  RP.client (poller d) <> None ->
  _running d = true -> _shutdown_event d = false ->
  Forall (fun w => RP.fails (tick_poll w)) ws ->
  let r := _main_loop d ws in
  wired (fst r)
  /\ RP.client (poller (fst r)) <> None
  /\ session_manager (fst r) = session_manager d
  /\ RP.previous_state (poller (fst r)) = RP.previous_state (poller d)
  /\ recording_calls (snd r) = []
  /\ export_threads (snd r) = [].
Proof.
  induction ws as [|w ws IH]; intros d W Hc Hr Hs Hf; cbv zeta.
  - cbn. repeat split; try assumption; apply W.
  - inversion Hf as [|? ? [e He] Hf']; subst.
    rewrite main_loop_cons, Hr, Hs. cbn [andb negb fst snd].
    destruct (pass_spec d w W Hc) as (W1 & C1 & _ & Hr1 & Hs1 & T1).
    rewrite He in T1. destruct T1 as (M1 & P1 & _ & R1 & X1).
    destruct (IH (fst (main_loop_pass d w)) W1 C1
                 ltac:(congruence) ltac:(congruence) Hf')
      as (W2 & C2 & M2 & P2 & R2 & X2).
    repeat split; try assumption; try congruence.
    + apply W2.
    + apply W2.
    + unfold recording_calls in *. rewrite frigate_events_app.
      unfold FC.calls in *. rewrite filter_app, R1, R2. reflexivity.
    + rewrite export_threads_app, X1, X2. reflexivity.
Qed.

(** X19: an outage during a recording does not lose its end.  While the
    stored state is ON, any number of passes whose polls fail, whatever the
    reconnection attempts in between do, leave the session manager and the
    stored state untouched and call nothing; the first pass that reads
    R_OFF afterwards closes the session that was open before the outage,
    asks for its camera to stop recording and starts its export. *)
Theorem outage_keeps_session_end (d : SessionDaemon) (ws : list TickInput)
    (w : TickInput) (a : RP.AllegoStatus) :
  wired d ->
  RP.client (poller d) <> None ->
  _running d = true -> _shutdown_event d = false ->
  RP.previous_state (poller d) = RP.ON ->
  Forall (fun w => RP.fails (tick_poll w)) ws ->
  answered w a -> RP.classify (RP.a_recording a) = RP.OFF ->
  let r1 := _main_loop d ws in
  let r2 := main_loop_pass (fst r1) w in
  let closing := SM.end_session (session_manager d) (tick_end w) in
  session_manager (fst r1) = session_manager d
  /\ RP.previous_state (poller (fst r1)) = RP.ON
  /\ recording_calls (snd r1) = []
  /\ export_threads (snd r1) = []
  /\ session_manager (fst r2) = fst (fst closing)
  /\ recording_calls (snd r2)
     = match snd (fst closing) with
       | Some s => [FC.Call_set_recording (SM.camera s) false]
       | None => []
       end
  /\ export_threads (snd r2)
     = match snd (fst closing) with Some s => [s] | None => [] end.
Proof.
  intros W Hc Hr Hs Hp Hf G K r1 r2 closing.
  destruct (main_loop_outage ws d W Hc Hr Hs Hf) as (W1 & C1 & M1 & P1 & R1 & X1).
  fold r1 in W1, C1, M1, P1, R1, X1.
  destruct (pass_spec (fst r1) w W1 C1) as (_ & _ & _ & _ & _ & T).
  fold r2 in T. unfold answered in G. rewrite G, P1, Hp, K, M1 in T.
  destruct T as (_ & _ & M2 & R2 & X2).
  repeat split; try assumption. congruence.
Qed.

Lemma recording_cycle_witness :
  let r1 := main_loop_pass awake (reading "R_ON" 1000) in
  let r2 := main_loop_pass (fst r1) (reading "R_OFF" 61055) in
  exists s closed,
    SM.active_session (session_manager (fst r1)) = Some s
    /\ recording_calls (snd r1) = [FC.Call_set_recording "pi_cam_0" true]
    /\ SM.history (session_manager (fst r2)) = [closed]
    /\ SM.video_filename closed = "2603010000_unknown_unknown.mp4"
    /\ recording_calls (snd r2) = [FC.Call_set_recording "pi_cam_0" false]
    /\ export_threads (snd r2) = [closed].
Proof.
  intros r1 r2.
  destruct (recording_cycle awake (reading "R_ON" 1000) (reading "R_OFF" 61055)
              _ _ (conj eq_refl eq_refl) ltac:(discriminate)
              eq_refl eq_refl eq_refl eq_refl eq_refl)
    as (s & closed & Hs & Ha & _ & R1 & _ & Hc & _ & _ & _ & Hh & _ & R2 & X2 & _).
  exists s, closed. injection Hs as <-. injection Hc as <-.
  split; [exact Ha|]. split; [exact R1|]. split; [exact Hh|].
  split; [reflexivity|]. split; [exact R2 | exact X2].
Defined.

Lemma unknown_reading_loses_session_end_witness :
  let d := fst (main_loop_pass awake (reading "R_ON" 1000)) in
  let r1 := main_loop_pass d (reading "R_PAUSED" 2000) in
  let r2 := main_loop_pass (fst r1) (reading "R_OFF" 3000) in
  let r3 := main_loop_pass (fst r2) (reading "R_ON" 4000) in
  (RP.previous_state (poller d) = RP.ON
   /\ SM.has_active_session (session_manager d) = true)
  /\ session_manager (fst r2) = session_manager d
  /\ recording_calls (snd r1 ++ snd r2) = []
  /\ SM.history (session_manager (fst r3)) = [].
Proof.
  intros d r1 r2 r3. split; [split; reflexivity|].
  destruct (unknown_reading_loses_session_end d
              (reading "R_PAUSED" 2000) (reading "R_OFF" 3000) (reading "R_ON" 4000)
              _ _ _ (conj eq_refl eq_refl) ltac:(discriminate)
              eq_refl eq_refl eq_refl eq_refl eq_refl eq_refl eq_refl)
    as (H1 & H2 & _ & _ & H5 & _).
  split; [exact H1|]. split; [exact H2 | exact H5].
Defined.

Lemma outage_keeps_session_end_witness :
  let d := fst (main_loop_pass awake (reading "R_ON" 1000)) in
  let ws := [unreachable 2000; unreachable 3000; unreachable 4000] in
  let r1 := _main_loop d ws in
  let r2 := main_loop_pass (fst r1) (reading "R_OFF" 5000) in
  Forall (fun w => RP.fails (tick_poll w)) ws
  /\ session_manager (fst r1) = session_manager d
  /\ recording_calls (snd r2) = [FC.Call_set_recording "pi_cam_0" false]
  /\ length (export_threads (snd r2)) = 1%nat.
Proof.
  intros d ws r1 r2.
  assert (F : Forall (fun w => RP.fails (tick_poll w)) ws)
    by (repeat constructor; exists "refused"; reflexivity).
  split; [exact F|].
  destruct (outage_keeps_session_end d ws (reading "R_OFF" 5000) _
              (conj eq_refl eq_refl) ltac:(discriminate)
              eq_refl eq_refl eq_refl F eq_refl eq_refl)
    as (H1 & _ & _ & _ & _ & H6 & H7).
  split; [exact H1|].
  split; [exact (eq_trans H6 eq_refl) | exact (eq_trans (f_equal _ H7) eq_refl)].
Defined.

(** X20: [stop] shuts everything down whatever it finds.  It clears the
    running flag and sets the shutdown event, so that the main loop makes
    no further pass; it aborts the session that is open, if any, with the
    reason "daemon shutdown" and asks for that session's camera to stop
    recording; it then asks every configured camera to stop recording, one
    call each, and disconnects, after which the controller refuses to
    publish.  The poller is left alone. *)
Theorem stop_shuts_down (d : SessionDaemon) (w : StopInput)
    (ws : list TickInput) :
  let r := stop d w in
  _running (fst r) = false
  /\ _shutdown_event (fst r) = true
  /\ _main_loop (fst r) ws = (fst r, [])
  /\ poller (fst r) = poller d
  /\ session_manager (fst r)
     = fst (fst (SM.abort_session (session_manager d) (stop_end w)
                                  "daemon shutdown"))
  /\ SM.active_session (session_manager (fst r)) = None
  /\ recording_calls (snd r)
     = match snd (fst (SM.abort_session (session_manager d) (stop_end w)
                                        "daemon shutdown")) with
       | Some s => [FC.Call_set_recording (SM.camera s) false]
       | None => []
       end
       ++ map (fun kv => FC.Call_set_recording (snd kv) false)
              (FC.cameras (frigate d))
  /\ export_threads (snd r) = []
  /\ (forall pw cam en,
        fst (fst (FC.set_recording (frigate (fst r)) pw cam en)) = false).
Proof.
  cbv zeta. unfold stop, SM.has_active_session.
  cbn [session_manager frigate poller].
  assert (D : forall c st pw cam en,
            fst (fst (FC.set_recording (fst (FC.disconnect_mqtt c st)) pw cam en))
            = false).
  { intros c st pw cam en. unfold FC.disconnect_mqtt.
    destruct (FC._mqtt_client c) as [cl|] eqn:E; cbn [fst].
    - reflexivity.
    - rewrite FrigateControllerFacts.set_recording_not_connected by (right; exact E).
      reflexivity. }
  assert (L : forall d0 : SessionDaemon,
            _running d0 = false -> _main_loop d0 ws = (d0, [])).
  { intros d0 H. destruct ws as [|w0 ws']; [reflexivity|].
    cbn [_main_loop]. rewrite H. reflexivity. }
  unfold SM.abort_session, SM.clear_metadata.
  destruct (SM.active_session (session_manager d)) as [s0|] eqn:A.
  - cbn [fst snd with_manager frigate session_manager].
    match goal with
    | |- context [FC.set_recording (frigate d) (stop_publish w) ?cam false] =>
        pose proof (FrigateControllerFacts.calls_set_recording
                      (frigate d) (stop_publish w) cam false) as Hc;
        destruct (FC.set_recording (frigate d) (stop_publish w) cam false)
          as [[ok sp] evf]
    end.
    cbn [fst snd] in Hc.
    cbn [fst snd with_manager frigate session_manager].
    destruct (FrigateControllerFacts.stop_all_loop_spec (frigate d) (stop_all w)
                (FC.cameras (frigate d)) 0%nat true) as [_ Hall].
    unfold FC.stop_all_recording.
    destruct (FC.stop_all_loop (frigate d) (stop_all w) 0 (FC.cameras (frigate d)) true)
      as [okall evall].
    cbn [snd] in Hall.
    pose proof (D (frigate d) (stop_disconnect w)) as Dd.
    destruct (FC.disconnect_mqtt (frigate d) (stop_disconnect w)) as [c2 warn].
    cbn [fst snd with_frigate _running _shutdown_event poller session_manager
         frigate] in *.
    repeat split; try (apply L; reflexivity); try exact Dd.
    + tidy_events. destruct warn; tidy_events;
        unfold FC.calls in *; rewrite filter_app, Hc, Hall; reflexivity.
    + tidy_events. destruct warn; tidy_events; reflexivity.
  - cbn [fst snd with_manager frigate session_manager].
    destruct (FrigateControllerFacts.stop_all_loop_spec (frigate d) (stop_all w)
                (FC.cameras (frigate d)) 0%nat true) as [_ Hall].
    unfold FC.stop_all_recording.
    destruct (FC.stop_all_loop (frigate d) (stop_all w) 0 (FC.cameras (frigate d)) true)
      as [okall evall].
    cbn [snd] in Hall.
    pose proof (D (frigate d) (stop_disconnect w)) as Dd.
    destruct (FC.disconnect_mqtt (frigate d) (stop_disconnect w)) as [c2 warn].
    cbn [fst snd with_frigate _running _shutdown_event poller session_manager
         frigate] in *.
    repeat split; try (apply L; reflexivity); try exact Dd; try exact A.
    + tidy_events. destruct warn; tidy_events; exact Hall.
    + tidy_events. destruct warn; tidy_events; reflexivity.
Qed.

End DaemonFacts.
